(** * jpl2mpc: conversion of a JPL Horizons text ephemeris to the MPC/DASO format

    A shallow embedding of [src/jpl2mpc.cpp] and the properties of it that
    the specification states.

    How the program is modelled:
    - a C [double] is an IEEE-754 binary64 number, Rocq's primitive
      [float], with its arithmetic rounded to nearest;
    - [char buff[200]] is a list of bytes; [fgets] overwrites its start
      and leaves the rest as an earlier line (or the uninitialised
      stack) had it, so reading [buff] beyond the terminator of a short
      line finds those old bytes; a C string ends at the first NUL, or at
      the end of the list;
    - [int] and [unsigned] arithmetic wraps at 32 bits;
    - the input file is the sequence of lines that [fgets] delivers with
      a 200-byte buffer, and [fseek( ifile, 0L, SEEK_SET)] starts it again;
    - the output file is a byte sequence with a write position, so that
      the final rewind and overwrite of the header is the operation the
      program performs; it is taken to be seekable, and what [printf]
      prints is collected apart from it, also when the output file is the
      standard output;
    - [atof], [atoi], the [%f] conversions of [printf] and [__DATE__]
      belong to the C library and the compiler: the program is
      parametrised by them (class [Platform]), and module [Glibc] gives
      an instance with which it runs on concrete files. *)

From Stdlib Require Import Ascii String ZArith Lia Bool Arith List.
From Stdlib Require Import Floats.PrimFloat Floats.SpecFloat Floats.FloatOps Floats.FloatAxioms.
From Stdlib Require Import Numbers.DecimalString.
From Stdlib Require Uint63.
From Equations Require Import Equations.
Import ListNotations.
Open Scope string_scope.
Open Scope nat_scope.
Open Scope list_scope.

Set Warnings "-inexact-float".

(* ------------------------------------------------------------------ *)
(** ** Bytes, C strings and the line buffer *)

Definition bytes := list ascii.

(** String literals of the source are written as Rocq strings. *)
Coercion list_ascii_of_string : string >-> list.

Definition NUL : ascii := Ascii.zero.
Definition LF : ascii := "010"%char.

Fixpoint bytes_eqb (p q : bytes) : bool :=
  match p, q with
  | [], [] => true
  | a :: p', b :: q' => Ascii.eqb a b && bytes_eqb p' q'
  | _, _ => false
  end.

(** The C string a [char *] designates: the bytes before the first NUL. *)
Fixpoint c_str (p : bytes) : bytes :=
  match p with
  | [] => []
  | c :: p' => if Ascii.eqb c NUL then [] else c :: c_str p'
  end.

Definition strlen (p : bytes) : nat := length (c_str p).

(** [buff[i]] *)
Definition idx (buff : bytes) (i : nat) : ascii := nth i buff NUL.

(** The C string at [buff + off]. *)
Definition str_at (buff : bytes) (off : nat) : bytes := c_str (skipn off buff).

(** [!memcmp( p, q, n)] *)
Definition memcmp_eq (p q : bytes) (n : nat) : bool :=
  bytes_eqb (firstn n p) (firstn n q).

Fixpoint prefixb (p s : bytes) : bool :=
  match p, s with
  | [], _ => true
  | a :: p', b :: s' => Ascii.eqb a b && prefixb p' s'
  | _ :: _, [] => false
  end.

(** [strstr( hay, needle)]: the tail of [hay] that starts at the first
    occurrence of [needle], or [None] for the null pointer. *)
Fixpoint strstr (hay needle : bytes) : option bytes :=
  if prefixb needle hay then Some hay
  else match hay with
       | [] => None
       | _ :: hay' => strstr hay' needle
       end.

Definition non_null {A} (p : option A) : bool :=
  match p with Some _ => true | None => false end.

(** What [fgets( buff, sizeof( buff), ifile)] leaves in [buff] when it
    delivers [line]: the line, a terminating NUL, and the old bytes
    after that. *)
Definition store_line (line buff : bytes) : bytes :=
  line ++ NUL :: skipn (S (length line)) buff.

(** The pieces in which [fgets] with a 200-byte buffer delivers a file:
    each ends after a line feed or after 199 bytes. *)
Fixpoint fgets_pieces (room : nat) (cur : bytes) (s : bytes) : list bytes :=
  match s with
  | [] => match cur with [] => [] | _ => [rev cur] end
  | c :: s' =>
      if Ascii.eqb c LF then rev (c :: cur) :: fgets_pieces 199 [] s'
      else match room with
           | S (S room') => fgets_pieces (S room') (c :: cur) s'
           | _ => rev (c :: cur) :: fgets_pieces 199 [] s'
           end
  end.

Definition fgets_lines (content : bytes) : list bytes := fgets_pieces 199 [] content.

(* ------------------------------------------------------------------ *)
(** ** The output stream *)

Record stream := mkStream { data : bytes; pos : nat }.

(** Writing at the current position overwrites what is there and extends
    the file past its end. *)
Definition fwrite (s : bytes) (f : stream) : stream :=
  {| data := firstn (pos f) (data f) ++ s ++ skipn (pos f + length s) (data f);
     pos := pos f + length s |}.

(** [fseek( f, 0L, SEEK_SET)] *)
Definition rewind (f : stream) : stream := {| data := data f; pos := 0 |}.

(* ------------------------------------------------------------------ *)
(** ** What the program takes from the C library and the compiler *)

Class Platform := {
  (** [atof] and [atoi] on a C string *)
  atof : bytes -> float;
  atoi : bytes -> Z;
  (** [printf_f w p x] is what ["%w.pf"] prints for [x] *)
  printf_f : nat -> nat -> float -> bytes;
  (** the expansion of [__DATE__] *)
  build_date : bytes
}.

(** ["%4u"]-style conversion of an unsigned value. *)
Definition pad_left (w : nat) (s : bytes) : bytes :=
  repeat " "%char (w - length s) ++ s.

Definition printf_u (w : nat) (n : N) : bytes :=
  pad_left w (list_ascii_of_string (NilZero.string_of_uint (N.to_uint n))).

(** [(double)] of an [int]. *)
Definition double_of_int (z : Z) : float :=
  if (z <? 0)%Z then PrimFloat.opp (PrimFloat.of_uint63 (Uint63.of_Z (- z)))
  else PrimFloat.of_uint63 (Uint63.of_Z z).

(** 32-bit wrap-around of [int] and [unsigned] arithmetic. *)
Definition wrap_int (z : Z) : Z := ((z + 2 ^ 31) mod 2 ^ 32 - 2 ^ 31)%Z.
Definition wrap_unsigned (n : N) : N := (n mod 2 ^ 32)%N.

(* ------------------------------------------------------------------ *)
(** ** The name table *)

Definition look_up_name (idx : Z) : bytes :=
  if (idx =? -21)%Z then "SOHO"
  else if (idx =? -48)%Z then "Hubble Space Telescope"
  else if (idx =? -82)%Z then "Cassini"
  else if (idx =? -234)%Z then "STEREO-A"
  else if (idx =? -235)%Z then "STEREO-B"
  else if (idx =? -144)%Z then "Solar Orbiter"
  else if (idx =? -95)%Z then "TESS = 2018-038A = NORAD 43435"
  else if (idx =? -79)%Z then "Spitzer Space Telescope"
  else if (idx =? -96)%Z then "Parker Space Probe"
  else if (idx =? -98)%Z then "New Horizons"
  else if (idx =? -151)%Z then "Chandra = 1999-040B = NORAD 25867"
  else if (idx =? -163)%Z then "WISE"
  else if (idx =? -139479)%Z then "Gaia = 2013-074A = NORAD 39479"
  else if (idx =? -9901491)%Z then "Tianwen-1 = 2020-049A = NORAD 45935"
  else if (idx =? -37)%Z then "Hayabusa 2 = 2014-076A = NORAD 40319"
  else "".

(* ------------------------------------------------------------------ *)
(** ** Evaluation of a condition, with the buffer indices it reads

    A condition of the source that indexes [buff] is evaluated to its
    value together with the list of indices it read, in the order of
    evaluation; [&&&] is the short-circuit [&&] of C. *)

Definition probe (A : Type) : Type := (A * list nat)%type.

Definition pure {A} (a : A) : probe A := (a, []).

(** [buff[i] == c] *)
Definition char_is (buff : bytes) (i : nat) (c : ascii) : probe bool :=
  (Ascii.eqb (idx buff i) c, [i]).

(** [!memcmp( buff + off, pat, n)] *)
Definition memcmp_at (buff : bytes) (off : nat) (pat : bytes) (n : nat) : probe bool :=
  (memcmp_eq (skipn off buff) pat n, seq off n).

Definition and_then (x y : probe bool) : probe bool :=
  if fst x then (fst y, snd x ++ snd y) else (false, snd x).

Definition or_else (x y : probe bool) : probe bool :=
  if fst x then (true, snd x) else (fst y, snd x ++ snd y).

Infix "&&&" := and_then (at level 40, left associativity).
Infix "|||" := or_else (at level 50, left associativity).

(* ------------------------------------------------------------------ *)
(** ** The program *)

Definition vec3 : Type := (float * float * float)%type.

Definition vec_map (f : float -> float) (v : vec3) : vec3 :=
  let '(x, y, z) := v in (f x, f y, f z).

Definition sin_obliq_2000 : float := 0.397777155931913701597179975942380896684%float.
Definition cos_obliq_2000 : float := 0.917482062069181825744000384639406458043%float.
Definition AU_IN_KM : float := 1.495978707e+8%float.
Definition seconds_per_day : float := (24 * 60 * 60)%float.

Section Program.
Context {P : Platform}.

(** The layout test of [get_coords_from_buff]. *)
Definition is_labelled (buff : bytes) : probe bool :=
  char_is buff 1 "X" ||| char_is buff 2 "X".

Definition get_coords_from_buff (buff : bytes) (is_ecliptical : bool) : vec3 :=
  let '(xloc, yloc, zloc) :=
    if fst (is_labelled buff)      (* quantities are labelled *)
    then (4, 30, 56) else (1, 24, 47) in
  let c0 := atof (str_at buff xloc) in
  let c1 := atof (str_at buff yloc) in
  let c2 := atof (str_at buff zloc) in
  if is_ecliptical then          (* rotate to equatorial *)
    let temp := (c2 * cos_obliq_2000 + c1 * sin_obliq_2000)%float in
    (c0, (c1 * cos_obliq_2000 - c2 * sin_obliq_2000)%float, temp)
  else (c0, c1, c2).

(** The locals of [main], the two files and what [printf] has written. *)
Record state := mkState {
  buff : bytes;
  n_written : N;
  jd0 : float;
  step_size : float;
  frac_jd0 : float;
  int_jd0 : Z;
  state_vectors : bool;
  is_equatorial : bool;
  is_ecliptical : bool;
  in_km_s : bool;
  object_name : bytes;
  ifile : list bytes;        (* the lines [fgets] has yet to deliver *)
  ofile : stream;
  console : bytes
}.

Definition set_buff v (s : state) :=
  mkState v (n_written s) (jd0 s) (step_size s) (frac_jd0 s) (int_jd0 s)
    (state_vectors s) (is_equatorial s) (is_ecliptical s) (in_km_s s)
    (object_name s) (ifile s) (ofile s) (console s).
Definition set_n_written v (s : state) :=
  mkState (buff s) v (jd0 s) (step_size s) (frac_jd0 s) (int_jd0 s)
    (state_vectors s) (is_equatorial s) (is_ecliptical s) (in_km_s s)
    (object_name s) (ifile s) (ofile s) (console s).
Definition set_epoch j f i (s : state) :=
  mkState (buff s) (n_written s) j (step_size s) f i
    (state_vectors s) (is_equatorial s) (is_ecliptical s) (in_km_s s)
    (object_name s) (ifile s) (ofile s) (console s).
Definition set_step_size v (s : state) :=
  mkState (buff s) (n_written s) (jd0 s) v (frac_jd0 s) (int_jd0 s)
    (state_vectors s) (is_equatorial s) (is_ecliptical s) (in_km_s s)
    (object_name s) (ifile s) (ofile s) (console s).
Definition set_state_vectors v (s : state) :=
  mkState (buff s) (n_written s) (jd0 s) (step_size s) (frac_jd0 s) (int_jd0 s)
    v (is_equatorial s) (is_ecliptical s) (in_km_s s)
    (object_name s) (ifile s) (ofile s) (console s).
Definition set_is_equatorial v (s : state) :=
  mkState (buff s) (n_written s) (jd0 s) (step_size s) (frac_jd0 s) (int_jd0 s)
    (state_vectors s) v (is_ecliptical s) (in_km_s s)
    (object_name s) (ifile s) (ofile s) (console s).
Definition set_is_ecliptical v (s : state) :=
  mkState (buff s) (n_written s) (jd0 s) (step_size s) (frac_jd0 s) (int_jd0 s)
    (state_vectors s) (is_equatorial s) v (in_km_s s)
    (object_name s) (ifile s) (ofile s) (console s).
Definition set_in_km_s v (s : state) :=
  mkState (buff s) (n_written s) (jd0 s) (step_size s) (frac_jd0 s) (int_jd0 s)
    (state_vectors s) (is_equatorial s) (is_ecliptical s) v
    (object_name s) (ifile s) (ofile s) (console s).
Definition set_object_name v (s : state) :=
  mkState (buff s) (n_written s) (jd0 s) (step_size s) (frac_jd0 s) (int_jd0 s)
    (state_vectors s) (is_equatorial s) (is_ecliptical s) (in_km_s s)
    v (ifile s) (ofile s) (console s).
Definition set_ifile v (s : state) :=
  mkState (buff s) (n_written s) (jd0 s) (step_size s) (frac_jd0 s) (int_jd0 s)
    (state_vectors s) (is_equatorial s) (is_ecliptical s) (in_km_s s)
    (object_name s) v (ofile s) (console s).
Definition set_ofile v (s : state) :=
  mkState (buff s) (n_written s) (jd0 s) (step_size s) (frac_jd0 s) (int_jd0 s)
    (state_vectors s) (is_equatorial s) (is_ecliptical s) (in_km_s s)
    (object_name s) (ifile s) v (console s).
Definition set_console v (s : state) :=
  mkState (buff s) (n_written s) (jd0 s) (step_size s) (frac_jd0 s) (int_jd0 s)
    (state_vectors s) (is_equatorial s) (is_ecliptical s) (in_km_s s)
    (object_name s) (ifile s) (ofile s) v.

(** [fgets( buff, sizeof( buff), ifile)]; [None] is the null result at
    the end of the file. *)
Definition fgets (s : state) : option state :=
  match ifile s with
  | [] => None
  | line :: rest => Some (set_ifile rest (set_buff (store_line line (buff s)) s))
  end.

(** [fprintf( ofile, ...)] and [printf( ...)] of an expanded text. *)
Definition fprintf (text : bytes) (s : state) : state :=
  set_ofile (fwrite text (ofile s)) s.
Definition printf (text : bytes) (s : state) : state :=
  set_console (console s ++ text) s.

(** [header_fmt = "%13.5f %14.10f %4u"] *)
Definition header_fmt (jd step : float) (n : N) : bytes :=
  printf_f 13 5 jd ++ " " ++ printf_f 14 10 step ++ " " ++ printf_u 4 n.

Definition header_suffix : bytes := " 0,1,1".

(** The condition of the first [if] in the scanning loop. *)
Definition timestamp_test (buff : bytes) : probe bool :=
  let jd := atof (c_str buff) in
  pure (2000000 <? jd)%float &&& pure (jd <? 3000000)%float
  &&& pure (54 <? strlen buff)%nat &&& memcmp_at buff 17 " = A.D." 7
  &&& char_is buff 42 ":" &&& char_is buff 45 "."
  &&& memcmp_at buff 50 " TDB" 4.

Definition is_timestamp_line (buff : bytes) : bool := fst (timestamp_test buff).

Definition frame_msg : bytes :=
  "Input coordinates must be in the Earth mean equator and equinox" ++ [LF]
  ++ "or in J2000 ecliptic coordinates" ++ [LF].

Definition truncated_msg : bytes := "Failed to get data from input file" ++ [LF].

(** The chain of [else if] that follows the timestamp test. *)
Definition detect (s : state) : state :=
  let b := buff s in
  if memcmp_eq b "   VX    VY    VZ" 17 then set_state_vectors true s
  else if non_null (strstr (c_str b) "Earth Mean Equator and Equinox") then set_is_equatorial true s
  else if non_null (strstr (c_str b) "Reference frame : ICRF") then set_is_equatorial true s
  else if non_null (strstr (c_str b) "Ecliptic and Mean Equinox of Reference Epoch")
       then set_is_ecliptical true s
  else if non_null (strstr (c_str b) "Reference frame : Ecliptic of J2000")
       then set_is_ecliptical true s
  else if memcmp_eq b " Revised:" 9
       then set_object_name (look_up_name (atoi (str_at b 71))) s
  else if memcmp_eq b "Target body name:" 17 then
       match strstr (c_str b) "(-" with
       | Some tptr => set_object_name (look_up_name (atoi (tl tptr))) s
       | None => s
       end
  else if memcmp_eq b "Output units    : KM-S" 22 then set_in_km_s true s
  else s.

(** Where one turn of the scanning loop leaves the program. *)
Inductive flow :=
| Next (s : state)                 (* back to the loop condition *)
| Leave (s : state)                (* [fgets] returned null: the loop is over *)
| Return (code : Z) (s : state).   (* [return( code)] from inside the loop *)

Definition position_record (jd : float) (c : vec3) : bytes :=
  let '(x, y, z) := c in
  printf_f 13 5 jd ++ printf_f 16 10 x ++ printf_f 16 10 y ++ printf_f 16 10 z.

Definition velocity_record (c : vec3) : bytes :=
  let '(x, y, z) := c in
  " " ++ printf_f 16 12 x ++ printf_f 16 12 y ++ printf_f 16 12 z ++ [LF].

Definition loop_body (s0 : state) : flow :=
  match fgets s0 with
  | None => Leave s0
  | Some s =>
    let jd := atof (c_str (buff s)) in
    if is_timestamp_line (buff s) then
      if Bool.eqb (is_equatorial s) (is_ecliptical s)   (* should be one or the other *)
      then Return (-1) (printf frame_msg s)
      else
        let s :=
          if (n_written s =? 0)%N then
            let s := set_epoch jd (atof (str_at (buff s) 7)) (atoi (c_str (buff s))) s in
            match object_name s with
            | _ :: _ => fprintf (" (500) Geocentric: " ++ object_name s ++ [LF]) s
            | [] => fprintf [LF] s
            end
          else if (n_written s =? 1)%N then
            set_step_size
              ((atof (str_at (buff s) 7) - frac_jd0 s)
               + double_of_int (wrap_int (atoi (c_str (buff s)) - int_jd0 s)))%float s
          else s in
        match fgets s with
        | None => Return (-2) (printf truncated_msg s)
        | Some s =>
          let coords := get_coords_from_buff (buff s) (is_ecliptical s) in
          let coords :=
            if in_km_s s then vec_map (fun c => c / AU_IN_KM)%float coords else coords in
          let s := fprintf (position_record jd coords) s in
          if negb (state_vectors s) then
            Next (set_n_written (wrap_unsigned (n_written s + 1)) (fprintf [LF] s))
          else
            match fgets s with
            | None => Return (-2) (printf truncated_msg s)
            | Some s =>
              let coords := get_coords_from_buff (buff s) (is_ecliptical s) in
              let coords :=
                if in_km_s s
                then vec_map (fun c => c * (seconds_per_day / AU_IN_KM))%float coords
                else coords in
              let s := fprintf (velocity_record coords) s in
              Next (set_n_written (wrap_unsigned (n_written s + 1)) s)
            end
        end
    else Next (detect s)
  end.

(** Every turn of the loop that comes back to the condition has taken at
    least one line from the input. *)
Lemma fgets_ifile (s s' : state) :
  fgets s = Some s' -> length (ifile s) = S (length (ifile s')).
Proof.
  unfold fgets. destruct (ifile s) as [|line rest] eqn:E; [discriminate|].
  intros [= <-]. reflexivity.
Qed.

Lemma loop_body_consumes (s s' : state) :
  loop_body s = Next s' -> length (ifile s') < length (ifile s).
Proof.
  unfold loop_body.
  destruct (fgets s) as [s1|] eqn:F1; [|discriminate].
  apply fgets_ifile in F1. rewrite F1.
  destruct (is_timestamp_line (buff s1)).
  - destruct (Bool.eqb _ _); [discriminate|].
    match goal with |- context [fgets ?t] =>
      assert (Hi : ifile t = ifile s1)
        by (destruct (n_written s1 =? 0)%N;
            [destruct (object_name _); reflexivity
            |destruct (n_written s1 =? 1)%N; reflexivity]);
      destruct (fgets t) as [s2|] eqn:F2; [|discriminate] end.
    apply fgets_ifile in F2. rewrite Hi in F2. rewrite F2.
    cbv zeta. destruct (negb _).
    + intros [= <-]. simpl. lia.
    + match goal with |- context [fgets ?t] =>
        destruct (fgets t) as [s3|] eqn:F3; [|discriminate] end.
      apply fgets_ifile in F3. simpl in F3. rewrite F3.
      intros [= <-]. simpl. lia.
  - intros [= <-].
    assert (ifile (detect s1) = ifile s1) as ->; [|lia].
    unfold detect.
    repeat match goal with
           | |- context [if ?c then _ else _] => destruct c
           | |- context [match ?c with Some _ => _ | None => _ end] => destruct c
           end; reflexivity.
Qed.

Definition inspect {A} (a : A) : {b : A | a = b} := exist _ a eq_refl.

(** How the scanning loop ends. *)
Inductive outcome :=
| Finished (s : state)
| Aborted (code : Z) (s : state).

(** [while( fgets( buff, sizeof( buff), ifile)) ...] *)
Equations scan (s : state) : outcome by wf (length (ifile s)) lt :=
  scan s with inspect (loop_body s) := {
    | exist _ (Next s') H => scan s'
    | exist _ (Leave s') _ => Finished s'
    | exist _ (Return code s') _ => Aborted code s' }.
Next Obligation. apply loop_body_consumes; assumption. Qed.

(** [while( fgets( buff, sizeof( buff), ifile) && memcmp( buff, "$$SOE", 5))
       fprintf( ofile, "%s", buff);] *)
Fixpoint copy_preamble (lines : list bytes) (s : state) : state :=
  match lines with
  | [] => set_ifile [] s
  | line :: rest =>
      let s := set_ifile rest (set_buff (store_line line (buff s)) s) in
      if memcmp_eq (buff s) "$$SOE" 5 then s
      else copy_preamble rest (fprintf (c_str (buff s)) s)
  end.

Definition nl : bytes := [LF].

Definition usage_msg : bytes :=
  nl ++ "JPL2MPC takes input ephemeri(de)s generated by HORIZONS  and," ++ nl
  ++ "produces file(s) suitable for use in DASO or eph2tle.  The name of" ++ nl
  ++ "the input ephemeris must be provided as a command-line argument." ++ nl
  ++ "For example:" ++ nl
  ++ nl ++ "jpl2mpc gaia.txt" ++ nl ++ nl
  ++ "The JPL ephemeris must be in text form (can use the 'download/save'" ++ nl
  ++ "option for this)." ++ nl
  ++ "   The bottom of 'jpl2mpc.cpp' shows how to submit a job via e-mail" ++ nl
  ++ "to the Horizons server that will get you an ephemeris in the necessary" ++ nl
  ++ "format,  or how to get such ephemerides using a URL." ++ nl.

Definition trailer : bytes :=
  nl ++ nl ++ "Created from Horizons data by 'jpl2mpc', ver " ++ build_date ++ nl.

(** The files the program can open, and the indeterminate bytes of the
    uninitialised [buff]. *)
Record world := mkWorld {
  fopen_rb : bytes -> option bytes;    (* the contents, if the file opens *)
  fopen_wb : bytes -> bool;
  buff_garbage : bytes
}.

(** What a run leaves behind: the value given to [exit] or returned from
    [main], the text of the [printf] calls, and the bytes of [ofile]. *)
Record result := mkResult {
  exit_code : Z;
  messages : bytes;
  output : bytes
}.

Definition initial_state (w : world) (lines : list bytes) (con : bytes) : state :=
  {| buff := buff_garbage w; n_written := 0;
     jd0 := 0; step_size := 0; frac_jd0 := 0; int_jd0 := 0;
     state_vectors := false; is_equatorial := false;
     is_ecliptical := false; in_km_s := false;
     object_name := "";
     ifile := lines; ofile := {| data := []; pos := 0 |}; console := con |}.

(** The state in which the scanning loop is entered, and the one it
    ends in. *)
Definition before_scan (w : world) (lines : list bytes) (con : bytes) : state :=
  fprintf header_suffix (fprintf (header_fmt 0 0 0) (initial_state w lines con)).

(** What follows the scanning loop. *)
Definition finish (lines : list bytes) (s : state) : state :=
  let s := fprintf trailer s in
  (* Seek back to start of input file & write header data: *)
  let s := copy_preamble lines (set_ifile lines s) in
  (* Seek back to start of file & write corrected hdr: *)
  let s := set_ofile (rewind (ofile s)) s in
  fprintf (header_fmt (jd0 s) (step_size s) (n_written s)) s.

(** [main] from the first [fseek] on: the two files are open. *)
Definition convert (w : world) (lines : list bytes) (con : bytes) : result :=
  match scan (before_scan w lines con) with
  | Aborted code s =>
      {| exit_code := code; messages := console s; output := data (ofile s) |}
  | Finished s =>
      let s := finish lines s in
      {| exit_code := 0; messages := console s; output := data (ofile s) |}
  end.

Definition main (w : world) (argv : list bytes) : result :=
  let argc := length argv in
  let ifile0 := if 1 <? argc then fopen_rb w (nth 1 argv []) else None in
  let ofile0 := if 2 <? argc then fopen_wb w (nth 2 argv []) else true in
  let con := [] in
  let con :=
    if (1 <? argc) && negb (non_null ifile0)
    then con ++ nl ++ "Couldn't open the Horizons file '" ++ nth 1 argv [] ++ "'" ++ nl
    else con in
  let con :=
    if negb ofile0
    then con ++ nl ++ "Couldn't open the output file '" ++ nth 2 argv [] ++ "'" ++ nl
    else con in
  if (argc <? 2) || negb (non_null ifile0) || negb ofile0 then
    {| exit_code := -1; messages := con ++ usage_msg; output := [] |}
  else
    convert w (fgets_lines (match ifile0 with Some c => c | None => [] end)) con.

End Program.

(* ------------------------------------------------------------------ *)
(** ** A platform to run the program on

    The conversions as the C standard describes them and glibc implements
    them, with correct rounding.  [atof] covers the decimal forms (sign,
    digits, decimal point, exponent); the hexadecimal, infinity and NaN
    forms that [strtod] also accepts are read as "no conversion".  The
    general theorems below hold for every platform; this one serves to
    run the program on concrete files. *)

Module Glibc.

Definition is_space (c : ascii) : bool :=
  let n := nat_of_ascii c in (n =? 32) || ((9 <=? n) && (n <=? 13)).

Definition digit_of (c : ascii) : option Z :=
  let n := nat_of_ascii c in
  if (48 <=? n) && (n <=? 57) then Some (Z.of_nat (n - 48)) else None.

Fixpoint skip_space (s : bytes) : bytes :=
  match s with
  | c :: s' => if is_space c then skip_space s' else s
  | [] => []
  end.

(** An optional sign: [true] for a minus. *)
Definition read_sign (s : bytes) : bool * bytes :=
  match s with
  | "-"%char :: s' => (true, s')
  | "+"%char :: s' => (false, s')
  | _ => (false, s)
  end.

(** A run of digits: the number they continue from [acc], how many there
    are, and what follows them. *)
Fixpoint read_digits (acc : Z) (count : nat) (s : bytes) : Z * nat * bytes :=
  match s with
  | c :: s' =>
      match digit_of c with
      | Some d => read_digits (10 * acc + d) (S count) s'
      | None => (acc, count, s)
      end
  | [] => (acc, count, s)
  end.

Definition atoi (s : bytes) : Z :=
  let '(neg, s) := read_sign (skip_space s) in
  let '(v, _, _) := read_digits 0 0 s in
  wrap_int (if neg then - v else v).

(** The exponent part, if there is one with at least one digit. *)
Definition read_exponent (s : bytes) : Z :=
  match s with
  | c :: s' =>
      if Ascii.eqb c "e" || Ascii.eqb c "E" then
        let '(neg, s'') := read_sign s' in
        let '(v, n, _) := read_digits 0 0 s'' in
        if n =? 0 then 0%Z else if neg then (- v)%Z else v
      else 0%Z
  | [] => 0%Z
  end.

(** The binary64 number nearest to [num / den] (ties to even), for
    positive [num] and [den]: the quotient is taken with at least 64
    significant bits and a sticky bit, and rounded once. *)
Definition nearest_double (num den : Z) : float :=
  let k := Z.max 0 (64 + Z.log2 den - Z.log2 num) in
  let q := (num * 2 ^ k / den)%Z in
  let sticky := if (num * 2 ^ k mod den =? 0)%Z then 0%Z else 1%Z in
  SF2Prim (binary_normalize prec emax (2 * q + sticky) (- k - 1) false).

Definition atof (s : bytes) : float :=
  let '(neg, s) := read_sign (skip_space s) in
  let '(m1, n1, s) := read_digits 0 0 s in
  let '(m, n2, s) :=
    match s with
    | "."%char :: s' => read_digits m1 0 s'
    | _ => (m1, 0, s)
    end in
  if n1 + n2 =? 0 then 0%float
  else
    let e := (read_exponent s - Z.of_nat n2)%Z in
    let v :=
      if (m =? 0)%Z then 0%float
      else if (0 <=? e)%Z then nearest_double (m * 10 ^ e) 1
      else nearest_double m (10 ^ (- e)) in
    if neg then (- v)%float else v.

(** [a / b] rounded to the nearest integer, ties to even. *)
Definition div_half_even (a b : Z) : Z :=
  let q := (a / b)%Z in
  let r := (a mod b)%Z in
  if (2 * r <? b)%Z then q
  else if (b <? 2 * r)%Z then (q + 1)%Z
  else if Z.even q then q else (q + 1)%Z.

Definition decimal (n : Z) : bytes :=
  list_ascii_of_string (NilZero.string_of_uint (N.to_uint (Z.to_N n))).

(** The digits of [|x| * 10^p] rounded to an integer, with the decimal
    point put back. *)
Definition fixed_digits (p : nat) (m : positive) (e : Z) : bytes :=
  let scale := (10 ^ Z.of_nat p)%Z in
  let r :=
    if (0 <=? e)%Z then (Z.pos m * 2 ^ e * scale)%Z
    else div_half_even (Z.pos m * scale) (2 ^ (- e)) in
  let frac := decimal (r mod scale) in
  decimal (r / scale)
  ++ (if p =? 0 then [] else "." ++ repeat "0"%char (p - length frac) ++ frac).

Definition printf_f (w p : nat) (x : float) : bytes :=
  pad_left w
    match Prim2SF x with
    | S754_nan => "nan"
    | S754_infinity s => (if s then "-" else "") ++ "inf"
    | S754_zero s =>
        (if s then "-" else "") ++ "0"
        ++ (if p =? 0 then [] else "." ++ repeat "0"%char p)
    | S754_finite s m e => (if s then "-" else "") ++ fixed_digits p m e
    end.

Definition platform : Platform :=
  Build_Platform atof atoi printf_f "Oct 29 2026".

End Glibc.


(* ------------------------------------------------------------------ *)
(** ** Sample inputs *)

Module Examples.

Definition ln (text : string) : bytes := list_ascii_of_string text ++ [LF].

(** Timestamp lines as Horizons prints them. *)
Definition ts1 : bytes :=
  ln "2458765.500000000 = A.D. 2019-Oct-09 00:00:00.0000 TDB ".
Definition ts2 : bytes :=
  ln "2458766.500000000 = A.D. 2019-Oct-10 00:00:00.0000 TDB ".
Definition ts1000 : bytes :=
  ln "2459765.500000000 = A.D. 2022-Jul-05 00:00:00.0000 TDB ".

(** Coordinate lines, with and without labels. *)
Definition xyz_labelled : bytes :=
  ln " X = 1.000000000000000E+00 Y = 2.000000000000000E+00 Z = 3.000000000000000E+00".
Definition xyz_plain : bytes :=
  ln "  1.000000000000000E+00  2.000000000000000E+00  3.000000000000000E+00".
Definition v_labelled : bytes :=
  ln " VX= 1.000000000000000E-02 VY= 2.000000000000000E-02 VZ= 3.000000000000000E-02".
Definition xyz_km : bytes :=
  ln " X = 1.495978707000000E+08 Y = 0.000000000000000E+00 Z = 0.000000000000000E+00".

(** An equatorial, position-only ephemeris of two samples one day apart. *)
Definition two_days : bytes :=
  ln "Target body name: Gaia (spacecraft) (-139479)" ++
  ln "Reference frame : ICRF" ++
  ln "$$SOE" ++
  ts1 ++ xyz_labelled ++
  ts2 ++ xyz_labelled ++
  ln "$$EOE".

(** The same with the second sample 1000 days after the first. *)
Definition thousand_days : bytes :=
  ln "Reference frame : ICRF" ++
  ln "$$SOE" ++
  ts1 ++ xyz_labelled ++
  ts1000 ++ xyz_labelled ++
  ln "$$EOE".

(** A data section with no frame line before it. *)
Definition no_frame : bytes :=
  ln "$$SOE" ++ ts1 ++ xyz_labelled ++ ln "$$EOE".

(** A data section and nothing else. *)
Definition bare : bytes := ts1 ++ xyz_labelled.

(** A timestamp line at the very end of the file. *)
Definition cut_short : bytes :=
  ln "Reference frame : ICRF" ++ ln "$$SOE" ++ ts1.

(** A report whose data section is empty. *)
Definition no_data : bytes :=
  ln "Target body name: Gaia (spacecraft) (-139479)" ++
  ln "Output units    : KM-S" ++
  ln "$$SOE" ++
  ln "$$EOE".

(** A world in which the input file holds [content] and the output file
    can be created. *)
Definition world_of (content : bytes) : world :=
  {| fopen_rb := fun _ => Some content;
     fopen_wb := fun _ => true;
     buff_garbage := repeat NUL 200 |}.

Definition argv2 : list bytes := ["jpl2mpc" : bytes; "eph.txt" : bytes; "out.txt" : bytes].
Definition argv0 : list bytes := ["jpl2mpc" : bytes].

(** A state at the loop condition: ecliptic input in km and km/s with
    velocities, one sample to come. *)
Definition ecliptic_km_state : state :=
  {| buff := repeat NUL 200; n_written := 3;
     jd0 := 2458762.5; step_size := 1; frac_jd0 := 0.5; int_jd0 := 2458762;
     state_vectors := true; is_equatorial := false;
     is_ecliptical := true; in_km_s := true;
     object_name := "";
     ifile := [ts1; xyz_km; v_labelled];
     ofile := {| data := []; pos := 0 |}; console := [] |}.

End Examples.

(* ------------------------------------------------------------------ *)
(** * Properties *)

(** Reading a variable back after assignments. *)
Ltac fields :=
  cbn [buff n_written jd0 step_size frac_jd0 int_jd0 state_vectors
       is_equatorial is_ecliptical in_km_s object_name ifile ofile console
       set_buff set_n_written set_epoch set_step_size set_state_vectors
       set_is_equatorial set_is_ecliptical set_in_km_s set_object_name
       set_ifile set_ofile set_console fprintf printf] in *.

(** ** Bytes and C strings *)

Lemma bytes_eqb_eq (p q : bytes) : bytes_eqb p q = true <-> p = q.
Proof.
  revert q. induction p as [|a p IH]; destruct q as [|b q]; simpl;
    try (split; [discriminate|congruence]); [tauto|].
  rewrite andb_true_iff, Ascii.eqb_eq, IH. split.
  - intros [-> ->]. reflexivity.
  - intros [= -> ->]. auto.
Qed.

Lemma c_str_app_nul (l r : bytes) : c_str (l ++ NUL :: r) = c_str l.
Proof.
  induction l as [|c l IH]; simpl.
  - reflexivity.
  - destruct (Ascii.eqb c NUL); [reflexivity|]. now rewrite IH.
Qed.

(** The C string is an initial part of the bytes it is read from. *)
Lemma c_str_initial (b : bytes) : exists r, b = c_str b ++ r.
Proof.
  induction b as [|c b [r IH]]; simpl.
  - exists []. reflexivity.
  - destruct (Ascii.eqb c NUL).
    + exists (c :: b). reflexivity.
    + exists r. simpl. now rewrite <- IH.
Qed.

Lemma c_str_store_line (line b : bytes) : c_str (store_line line b) = c_str line.
Proof. apply c_str_app_nul. Qed.

Lemma strlen_store_line (line b : bytes) :
  strlen (store_line line b) = strlen line.
Proof. unfold strlen. now rewrite c_str_store_line. Qed.

Lemma strlen_le (b : bytes) : strlen b <= length b.
Proof.
  unfold strlen. destruct (c_str_initial b) as [r E].
  rewrite E at 2. rewrite length_app. lia.
Qed.

Lemma window_app (x r : bytes) (off n : nat) :
  off + n <= length x ->
  firstn n (skipn off (x ++ r)) = firstn n (skipn off x).
Proof.
  intros H. rewrite skipn_app, firstn_app, length_skipn.
  replace (n - (length x - off)) with 0 by lia.
  rewrite firstn_O, app_nil_r. reflexivity.
Qed.

(** A window that lies within the C string reads the same from the
    buffer and from the string. *)
Lemma window_c_str (b : bytes) (off n : nat) :
  off + n <= strlen b ->
  firstn n (skipn off b) = firstn n (skipn off (c_str b)).
Proof.
  intros H. destruct (c_str_initial b) as [r E].
  rewrite E at 1. apply window_app. exact H.
Qed.

Lemma idx_c_str (b : bytes) (i : nat) :
  i < strlen b -> nth_error (c_str b) i = Some (idx b i).
Proof.
  intros H. destruct (c_str_initial b) as [r E]. unfold idx.
  rewrite E at 2. rewrite app_nth1 by exact H.
  apply nth_error_nth'. exact H.
Qed.

Lemma idx_store_line (line b : bytes) (i : nat) :
  i < length line -> idx (store_line line b) i = nth i line NUL.
Proof. intros H. unfold idx, store_line. now rewrite app_nth1. Qed.

Lemma window_store_line (line b : bytes) (off n : nat) :
  off + n <= length line ->
  firstn n (skipn off (store_line line b)) = firstn n (skipn off line).
Proof. apply window_app. Qed.

Lemma fst_and_then (x y : probe bool) : fst (x &&& y) = fst x && fst y.
Proof. unfold and_then. destruct (fst x); reflexivity. Qed.

Lemma fst_or_else (x y : probe bool) : fst (x ||| y) = fst x || fst y.
Proof. unfold or_else. destruct (fst x); reflexivity. Qed.

(** ** Binary64 arithmetic *)

Lemma SFadd_comm (a b : spec_float) : SF64add a b = SF64add b a.
Proof.
  unfold SF64add.
  destruct a as [sa|sa| |sa ma ea], b as [sb|sb| |sb mb eb];
    simpl; try reflexivity.
  - destruct sa, sb; reflexivity.
  - destruct sa, sb; reflexivity.
  - rewrite (Z.min_comm eb ea).
    rewrite (Z.add_comm (cond_Zopp sb _)). reflexivity.
Qed.

Lemma float_add_comm (x y : float) : (x + y = y + x)%float.
Proof. apply Prim2SF_inj. rewrite !add_spec. apply SFadd_comm. Qed.

(** ** The timestamp test and the coordinate lines *)

Section Scanner.
Context {P : Platform}.

(** The timestamp test as one conjunction. *)
Lemma is_timestamp_line_eq (b : bytes) :
  is_timestamp_line b =
  (2000000 <? atof (c_str b))%float && (atof (c_str b) <? 3000000)%float
  && (54 <? strlen b)
  && bytes_eqb (firstn 7 (skipn 17 b)) " = A.D."
  && Ascii.eqb (idx b 42) ":" && Ascii.eqb (idx b 45) "."
  && bytes_eqb (firstn 4 (skipn 50 b)) " TDB".
Proof.
  unfold is_timestamp_line, timestamp_test.
  rewrite !fst_and_then. reflexivity.
Qed.

(** The test looks at the line just read, never at what an earlier line
    left in the buffer. *)
Lemma is_timestamp_line_store (line b : bytes) :
  is_timestamp_line (store_line line b) = is_timestamp_line line.
Proof.
  rewrite !is_timestamp_line_eq, c_str_store_line, strlen_store_line.
  destruct (54 <? strlen line) eqn:L.
  - apply Nat.ltb_lt in L. pose proof (strlen_le line) as Hl.
    rewrite !window_store_line by lia.
    rewrite !idx_store_line by lia. reflexivity.
  - rewrite !andb_false_r. reflexivity.
Qed.

(** C9.  Every index of [buff] that the timestamp test reads (17 to 23,
    42, 45, 50 to 53) is read after the length test has succeeded: it lies
    before the terminating NUL, inside the line just delivered, and the
    byte read there is a byte of that line. *)
Theorem timestamp_test_in_bounds (line old : bytes) (i : nat) :
  In i (snd (timestamp_test (store_line line old))) ->
  (54 <? strlen (store_line line old)) = true
  /\ i < strlen (store_line line old)
  /\ i < length line
  /\ idx (store_line line old) i = nth i line NUL
  /\ (17 <= i <= 23 \/ i = 42 \/ i = 45 \/ 50 <= i <= 53).
Proof.
  intros H.
  assert (G : (54 <? strlen (store_line line old)) = true /\
              (17 <= i <= 23 \/ i = 42 \/ i = 45 \/ 50 <= i <= 53)).
  { revert H. unfold timestamp_test, and_then, pure, memcmp_at, char_is.
    cbn [fst snd].
    destruct (2000000 <? _)%float; cbn [fst snd]; [|intros []].
    destruct (_ <? 3000000)%float; cbn [fst snd]; [|intros []].
    destruct (54 <? _); cbn [fst snd]; [|intros []].
    repeat match goal with
           | |- context [if ?c then _ else _] => destruct c; cbn [fst snd]
           end;
      simpl; intros H; split; try reflexivity; lia. }
  destruct G as [G1 G2]. pose proof G1 as G3. apply Nat.ltb_lt in G3.
  pose proof (strlen_le line) as Hl.
  rewrite strlen_store_line in *.
  repeat split; try assumption; try lia.
  apply idx_store_line. lia.
Qed.

(** The three numbers at the given offsets of a coordinate line. *)
Definition parse_at (b : bytes) (x y z : nat) : vec3 :=
  (atof (str_at b x), atof (str_at b y), atof (str_at b z)).

Definition labelled (b : bytes) : bool :=
  Ascii.eqb (idx b 1) "X" || Ascii.eqb (idx b 2) "X".

Lemma get_coords_raw (b : bytes) :
  get_coords_from_buff b false =
  if labelled b then parse_at b 4 30 56 else parse_at b 1 24 47.
Proof.
  unfold get_coords_from_buff, is_labelled, labelled, parse_at.
  rewrite fst_or_else. cbn [char_is fst].
  destruct (_ || _); reflexivity.
Qed.

(** The rotation as the source computes it. *)
Lemma get_coords_ecliptical (b : bytes) :
  get_coords_from_buff b true =
  let '(x, y, z) := get_coords_from_buff b false in
  (x, y * cos_obliq_2000 - z * sin_obliq_2000,
   z * cos_obliq_2000 + y * sin_obliq_2000)%float.
Proof.
  unfold get_coords_from_buff.
  destruct (fst (is_labelled b)); reflexivity.
Qed.

Lemma str_at_store_line (line b : bytes) (off : nat) :
  off <= length line -> str_at (store_line line b) off = str_at line off.
Proof.
  intros H. unfold str_at, store_line.
  rewrite skipn_app. replace (off - length line) with 0 by lia.
  rewrite skipn_O. apply c_str_app_nul.
Qed.

(** A coordinate line that reaches to offset 56 is parsed from its own
    bytes, whatever the buffer held before. *)
Lemma get_coords_store_line (line old : bytes) (ecl : bool) :
  56 <= length line ->
  get_coords_from_buff (store_line line old) ecl = get_coords_from_buff line ecl.
Proof.
  intros H. unfold get_coords_from_buff, is_labelled.
  rewrite !fst_or_else. cbn [char_is fst].
  rewrite !idx_store_line by lia.
  change (nth 1 line NUL) with (idx line 1).
  change (nth 2 line NUL) with (idx line 2).
  destruct (_ || _); rewrite !str_at_store_line by lia; reflexivity.
Qed.

End Scanner.

(* ------------------------------------------------------------------ *)
(** ** One turn of the scanning loop *)

(** The rotation and the unit conversions in the words of the
    specification. *)
Definition rotate (v : vec3) : vec3 :=
  let '(x, y, z) := v in
  (x,
   y * 0.917482062069181825744000384639406458043
   - z * 0.397777155931913701597179975942380896684,
   y * 0.397777155931913701597179975942380896684
   + z * 0.917482062069181825744000384639406458043)%float.

Definition km_to_au (c : float) : float := (c / 1.495978707e8)%float.
Definition km_s_to_au_day (c : float) : float := (c * (86400 / 1.495978707e8))%float.

Definition to_equatorial (ecliptical : bool) (v : vec3) : vec3 :=
  if ecliptical then rotate v else v.
Definition position_units (km : bool) (v : vec3) : vec3 :=
  if km then vec_map km_to_au v else v.
Definition velocity_units (km : bool) (v : vec3) : vec3 :=
  if km then vec_map km_s_to_au_day v else v.

Definition descriptive_line (name : bytes) : bytes :=
  match name with
  | _ :: _ => " (500) Geocentric: " ++ name ++ [LF]
  | [] => [LF]
  end.

Section Turn.
Context {P : Platform}.

(** The values a coordinate line stands for, before rotation. *)
Definition raw_coords (b : bytes) : vec3 := get_coords_from_buff b false.

Lemma get_coords_rotate (b : bytes) (ecl : bool) :
  get_coords_from_buff b ecl = to_equatorial ecl (raw_coords b).
Proof.
  destruct ecl; [|reflexivity].
  rewrite get_coords_ecliptical. unfold raw_coords, to_equatorial, rotate.
  destruct (get_coords_from_buff b false) as [[x y] z].
  rewrite (float_add_comm (z * _)). reflexivity.
Qed.

(** The epoch variables [jd0], [step_size], [frac_jd0], [int_jd0]. *)
Definition epoch : Type := (float * float * float * Z)%type.

Definition epoch_of (s : state) : epoch :=
  (jd0 s, step_size s, frac_jd0 s, int_jd0 s).

(** What the timestamp line [ts] of sample number [n] (from 0) does to
    them. *)
Definition sample_epoch (n : N) (ts : bytes) (e : epoch) : epoch :=
  let '(j, st, f, i) := e in
  if (n =? 0)%N then (atof (c_str ts), st, atof (str_at ts 7), atoi (c_str ts))
  else if (n =? 1)%N then
    (j, (atof (str_at ts 7) - f
         + double_of_int (wrap_int (atoi (c_str ts) - i)))%float, f, i)
  else e.

Definition flags_of (s : state) : bool * bool * bool * bool :=
  (state_vectors s, is_equatorial s, is_ecliptical s, in_km_s s).

(** The output file once the timestamp line of a sample has been dealt
    with: the first sample closes the header line. *)
Definition with_descriptive_line (s : state) : stream :=
  if (n_written s =? 0)%N
  then fwrite (descriptive_line (object_name s)) (ofile s)
  else ofile s.

Lemma timestamp_line_long (ts : bytes) :
  is_timestamp_line ts = true -> 54 < length ts.
Proof.
  rewrite is_timestamp_line_eq, !andb_true_iff, Nat.ltb_lt.
  pose proof (strlen_le ts). intuition lia.
Qed.

(** The state after the timestamp line of a sample, when the frame is
    known. *)
Definition after_timestamp (s : state) (ts : bytes) (rest : list bytes) : state :=
  let s1 := set_ifile rest (set_buff (store_line ts (buff s)) s) in
  let jd := atof (c_str (buff s1)) in
  if (n_written s1 =? 0)%N then
    let s2 := set_epoch jd (atof (str_at (buff s1) 7)) (atoi (c_str (buff s1))) s1 in
    match object_name s2 with
    | _ :: _ => fprintf (" (500) Geocentric: " ++ object_name s2 ++ [LF]) s2
    | [] => fprintf [LF] s2
    end
  else if (n_written s1 =? 1)%N then
    set_step_size
      ((atof (str_at (buff s1) 7) - frac_jd0 s1)
       + double_of_int (wrap_int (atoi (c_str (buff s1)) - int_jd0 s1)))%float s1
  else s1.

Lemma after_timestamp_facts (s : state) (ts : bytes) (rest : list bytes) :
  is_timestamp_line ts = true ->
  let s2 := after_timestamp s ts rest in
  ifile s2 = rest /\ buff s2 = store_line ts (buff s)
  /\ n_written s2 = n_written s /\ flags_of s2 = flags_of s
  /\ object_name s2 = object_name s /\ console s2 = console s
  /\ ofile s2 = with_descriptive_line s
  /\ epoch_of s2 = sample_epoch (n_written s) ts (epoch_of s).
Proof.
  intros T. apply timestamp_line_long in T.
  unfold after_timestamp, with_descriptive_line, sample_epoch, epoch_of.
  cbn [n_written set_ifile set_buff buff frac_jd0 int_jd0 jd0 step_size].
  rewrite c_str_store_line, str_at_store_line by lia.
  destruct (n_written s =? 0)%N.
  - cbn [object_name set_epoch set_ifile set_buff].
    destruct (object_name s) eqn:E; cbn; rewrite ?E; repeat split; reflexivity.
  - destruct (n_written s =? 1)%N; cbn; repeat split; reflexivity.
Qed.

Lemma loop_body_timestamp (s : state) (ts : bytes) (rest : list bytes) :
  ifile s = ts :: rest ->
  is_timestamp_line ts = true ->
  loop_body s =
  if Bool.eqb (is_equatorial s) (is_ecliptical s)
  then Return (-1) (printf frame_msg (set_ifile rest (set_buff (store_line ts (buff s)) s)))
  else
    let s2 := after_timestamp s ts rest in
    match fgets s2 with
    | None => Return (-2) (printf truncated_msg s2)
    | Some s3 =>
        let coords :=
          position_units (in_km_s s3)
            (to_equatorial (is_ecliptical s3) (raw_coords (buff s3))) in
        let s4 := fprintf (position_record (atof (c_str ts)) coords) s3 in
        if negb (state_vectors s4) then
          Next (set_n_written (wrap_unsigned (n_written s4 + 1)) (fprintf [LF] s4))
        else
          match fgets s4 with
          | None => Return (-2) (printf truncated_msg s4)
          | Some s5 =>
              let coords :=
                velocity_units (in_km_s s5)
                  (to_equatorial (is_ecliptical s5) (raw_coords (buff s5))) in
              let s6 := fprintf (velocity_record coords) s5 in
              Next (set_n_written (wrap_unsigned (n_written s6 + 1)) s6)
          end
    end.
Proof.
  intros I T.
  assert (T1 : is_timestamp_line
                 (buff (set_ifile rest (set_buff (store_line ts (buff s)) s))) = true)
    by (cbn [buff set_ifile set_buff]; rewrite is_timestamp_line_store; exact T).
  assert (J : c_str (buff (set_ifile rest (set_buff (store_line ts (buff s)) s)))
              = c_str ts) by apply c_str_store_line.
  unfold loop_body, after_timestamp. unfold fgets at 1. rewrite I.
  cbv beta iota zeta. rewrite T1.
  cbn [is_equatorial is_ecliptical set_ifile set_buff].
  destruct (Bool.eqb _ _); [reflexivity|].
  match goal with |- context [fgets ?t] => destruct (fgets t) as [s3|] end;
    [|reflexivity].
  rewrite J, <- get_coords_rotate.
  change (position_units (in_km_s s3)) with
    (fun v => if in_km_s s3 then vec_map (fun c => c / AU_IN_KM)%float v else v).
  cbv beta.
  destruct (negb _); [reflexivity|].
  match goal with |- context [fgets ?t] => destruct (fgets t) as [s5|] end;
    [|reflexivity].
  rewrite <- get_coords_rotate. reflexivity.
Qed.

Lemma fgets_cons (s : state) (line : bytes) (rest : list bytes) :
  ifile s = line :: rest ->
  fgets s = Some (set_ifile rest (set_buff (store_line line (buff s)) s)).
Proof. intros I. unfold fgets. rewrite I. reflexivity. Qed.

(** A sample with a position line only. *)
Lemma loop_body_position (s : state) (ts pos : bytes) (rest : list bytes) :
  ifile s = ts :: pos :: rest ->
  is_timestamp_line ts = true ->
  Bool.eqb (is_equatorial s) (is_ecliptical s) = false ->
  state_vectors s = false ->
  let bp := store_line pos (store_line ts (buff s)) in
  exists s',
    loop_body s = Next s'
    /\ ifile s' = rest /\ buff s' = bp
    /\ n_written s' = wrap_unsigned (n_written s + 1)
    /\ epoch_of s' = sample_epoch (n_written s) ts (epoch_of s)
    /\ flags_of s' = flags_of s /\ object_name s' = object_name s
    /\ console s' = console s
    /\ ofile s' =
       fwrite [LF]
         (fwrite (position_record (atof (c_str ts))
                    (position_units (in_km_s s)
                       (to_equatorial (is_ecliptical s) (raw_coords bp))))
            (with_descriptive_line s)).
Proof.
  intros I T F V bp.
  destruct (after_timestamp_facts s ts (pos :: rest) T)
    as (A1 & A2 & A3 & A4 & A5 & A6 & A7 & A8).
  rewrite (loop_body_timestamp s ts (pos :: rest) I T), F.
  cbv zeta. rewrite (fgets_cons _ pos rest A1).
  pose proof A4 as A4'. injection A4' as V4 Q4 E4 K4.
  fields. rewrite V4, V, K4, E4, A2. cbn [negb].
  eexists. split; [reflexivity|].
  unfold epoch_of, flags_of in *. fields.
  rewrite A3, A5, A6, A7. repeat split; assumption.
Qed.

(** A sample with a position line and a velocity line. *)
Lemma loop_body_state_vector (s : state) (ts pos vel : bytes) (rest : list bytes) :
  ifile s = ts :: pos :: vel :: rest ->
  is_timestamp_line ts = true ->
  Bool.eqb (is_equatorial s) (is_ecliptical s) = false ->
  state_vectors s = true ->
  let bp := store_line pos (store_line ts (buff s)) in
  let bv := store_line vel bp in
  exists s',
    loop_body s = Next s'
    /\ ifile s' = rest /\ buff s' = bv
    /\ n_written s' = wrap_unsigned (n_written s + 1)
    /\ epoch_of s' = sample_epoch (n_written s) ts (epoch_of s)
    /\ flags_of s' = flags_of s /\ object_name s' = object_name s
    /\ console s' = console s
    /\ ofile s' =
       fwrite (velocity_record
                 (velocity_units (in_km_s s)
                    (to_equatorial (is_ecliptical s) (raw_coords bv))))
         (fwrite (position_record (atof (c_str ts))
                    (position_units (in_km_s s)
                       (to_equatorial (is_ecliptical s) (raw_coords bp))))
            (with_descriptive_line s)).
Proof.
  intros I T F V bp bv.
  destruct (after_timestamp_facts s ts (pos :: vel :: rest) T)
    as (A1 & A2 & A3 & A4 & A5 & A6 & A7 & A8).
  rewrite (loop_body_timestamp s ts (pos :: vel :: rest) I T), F.
  cbv zeta. rewrite (fgets_cons _ pos (vel :: rest) A1).
  pose proof A4 as A4'. injection A4' as V4 Q4 E4 K4.
  fields. rewrite V4, V, K4, E4, A2. cbn [negb].
  erewrite fgets_cons by reflexivity.
  fields. rewrite K4, E4.
  eexists. split; [reflexivity|].
  unfold epoch_of, flags_of in *. fields.
  rewrite A3, A5, A6, A7. repeat split; assumption.
Qed.

(** C4.  With the ecliptic flag set, [get_coords_from_buff] turns the three
    numbers (x, y, z) it has read into (x, y cos - z sin, y sin + z cos),
    with sin = 0.397777155931913701597179975942380896684 and
    cos = 0.917482062069181825744000384639406458043.  In a sample the
    rotation acts on the numbers as read from the position line and,
    separately, on those read from the velocity line; the unit conversion
    comes after it. *)
Theorem ecliptic_rotation (s : state) (ts pos : bytes) (rest : list bytes) :
  ifile s = ts :: pos :: rest ->
  is_timestamp_line ts = true ->
  is_ecliptical s = true -> is_equatorial s = false ->
  let bp := store_line pos (store_line ts (buff s)) in
  (forall b, get_coords_from_buff b true = rotate (raw_coords b))
  /\ (state_vectors s = false ->
      exists s', loop_body s = Next s'
       /\ ofile s' =
          fwrite [LF]
            (fwrite (position_record (atof (c_str ts))
                       (position_units (in_km_s s) (rotate (raw_coords bp))))
               (with_descriptive_line s)))
  /\ (state_vectors s = true ->
      forall vel rest', rest = vel :: rest' ->
      let bv := store_line vel bp in
      exists s', loop_body s = Next s'
       /\ ofile s' =
          fwrite (velocity_record
                    (velocity_units (in_km_s s) (rotate (raw_coords bv))))
            (fwrite (position_record (atof (c_str ts))
                       (position_units (in_km_s s) (rotate (raw_coords bp))))
               (with_descriptive_line s))).
Proof.
  intros I T E Q bp.
  assert (F : Bool.eqb (is_equatorial s) (is_ecliptical s) = false)
    by (rewrite E, Q; reflexivity).
  split; [intros b; apply (get_coords_rotate b true)|]. split.
  - intros V.
    destruct (loop_body_position s ts pos rest I T F V)
      as (s' & L & _ & _ & _ & _ & _ & _ & _ & O).
    exists s'. split; [exact L|]. rewrite O, E. reflexivity.
  - intros V vel rest' ->. intros bv.
    destruct (loop_body_state_vector s ts pos vel rest' I T F V)
      as (s' & L & _ & _ & _ & _ & _ & _ & _ & O).
    exists s'. split; [exact L|]. rewrite O, E. reflexivity.
Qed.

(** C5.  With the km/s flag set, each component of the position written
    for a sample is the one read (and rotated, if need be) divided by
    1.495978707e8, and each component of the velocity is the one read
    multiplied by 86400 / 1.495978707e8; the position (149597870.7, 0, 0)
    comes out as (1, 0, 0), which is within 1e-6 of (1, 0, 0). *)
Theorem km_s_conversion (s : state) (ts pos : bytes) (rest : list bytes) :
  ifile s = ts :: pos :: rest ->
  is_timestamp_line ts = true ->
  Bool.eqb (is_equatorial s) (is_ecliptical s) = false ->
  in_km_s s = true ->
  let bp := store_line pos (store_line ts (buff s)) in
  let p := to_equatorial (is_ecliptical s) (raw_coords bp) in
  (state_vectors s = false ->
   exists s', loop_body s = Next s'
    /\ ofile s' =
       fwrite [LF]
         (fwrite (position_record (atof (c_str ts)) (vec_map km_to_au p))
            (with_descriptive_line s)))
  /\ (state_vectors s = true ->
      forall vel rest', rest = vel :: rest' ->
      let v := to_equatorial (is_ecliptical s) (raw_coords (store_line vel bp)) in
      exists s', loop_body s = Next s'
       /\ ofile s' =
          fwrite (velocity_record (vec_map km_s_to_au_day v))
            (fwrite (position_record (atof (c_str ts)) (vec_map km_to_au p))
               (with_descriptive_line s)))
  /\ (vec_map km_to_au (149597870.7, 0, 0)%float = (1, 0, 0)%float
      /\ (abs (km_to_au 149597870.7 - 1) <=? 1e-6)%float = true).
Proof.
  intros I T F K bp p. split; [|split].
  - intros V.
    destruct (loop_body_position s ts pos rest I T F V)
      as (s' & L & _ & _ & _ & _ & _ & _ & _ & O).
    exists s'. split; [exact L|]. rewrite O, K. reflexivity.
  - intros V vel rest' ->. intros v.
    destruct (loop_body_state_vector s ts pos vel rest' I T F V)
      as (s' & L & _ & _ & _ & _ & _ & _ & _ & O).
    exists s'. split; [exact L|]. rewrite O, K. reflexivity.
  - split; vm_compute; reflexivity.
Qed.

End Turn.

(* ------------------------------------------------------------------ *)
(** ** The scanning loop *)

Section Loop.
Context {P : Platform}.

Lemma scan_step (s : state) :
  scan s = match loop_body s with
           | Next s' => scan s'
           | Leave s' => Finished s'
           | Return code s' => Aborted code s'
           end.
Proof.
  funelim (scan s);
    match goal with H : loop_body _ = _ |- _ => rewrite H end; reflexivity.
Qed.

(** [reaches s s']: the loop, entered in state [s], comes to its condition
    in state [s']. *)
Inductive reaches : state -> state -> Prop :=
| reaches_here (s : state) : reaches s s
| reaches_next (s s1 s2 : state) :
    loop_body s = Next s1 -> reaches s1 s2 -> reaches s s2.

Lemma scan_reaches (s s' : state) : reaches s s' -> scan s = scan s'.
Proof.
  induction 1 as [|s s1 s2 H _ IH]; [reflexivity|].
  rewrite scan_step, H. exact IH.
Qed.

Lemma loop_body_eof (s : state) : ifile s = [] -> loop_body s = Leave s.
Proof. intros I. unfold loop_body, fgets. rewrite I. reflexivity. Qed.

Lemma loop_body_other (s : state) (line : bytes) (rest : list bytes) :
  ifile s = line :: rest ->
  is_timestamp_line line = false ->
  loop_body s = Next (detect (set_ifile rest (set_buff (store_line line (buff s)) s))).
Proof.
  intros I T. unfold loop_body. rewrite (fgets_cons s line rest I).
  fields. rewrite is_timestamp_line_store, T. reflexivity.
Qed.

(** The header lines change flags and the object name, nothing else. *)
Lemma detect_keeps (s : state) :
  ifile (detect s) = ifile s /\ buff (detect s) = buff s
  /\ n_written (detect s) = n_written s /\ epoch_of (detect s) = epoch_of s
  /\ ofile (detect s) = ofile s /\ console (detect s) = console s.
Proof.
  unfold detect, epoch_of.
  repeat match goal with
         | |- context [if ?c then _ else _] => destruct c
         | |- context [match ?c with Some _ => _ | None => _ end] => destruct c
         end; repeat split; reflexivity.
Qed.

Lemma detect_state_vectors (s : state) :
  state_vectors (detect s) =
  state_vectors s || memcmp_eq (buff s) "   VX    VY    VZ" 17.
Proof.
  unfold detect. destruct (memcmp_eq (buff s) _ 17).
  - fields. now rewrite orb_true_r.
  - rewrite orb_false_r.
    repeat match goal with
           | |- context [if ?c then _ else _] => destruct c
           | |- context [match ?c with Some _ => _ | None => _ end] => destruct c
           end; reflexivity.
Qed.

(** *** Writing to the output file *)

Definition at_end (f : stream) : Prop := pos f = length (data f).

Lemma fwrite_at_end (t : bytes) (f : stream) :
  at_end f ->
  data (fwrite t f) = data f ++ t /\ at_end (fwrite t f).
Proof.
  unfold at_end, fwrite. intros E. cbn [data pos]. rewrite E.
  rewrite firstn_all, skipn_all2 by lia.
  rewrite app_nil_r, length_app. auto.
Qed.

Lemma fwrite_rewind (t : bytes) (f : stream) :
  data (fwrite t (rewind f)) = t ++ skipn (length t) (data f).
Proof. reflexivity. Qed.

(** *** Comparing the start of a line with a literal *)

Lemma memcmp_app_nul (line r pat : bytes) :
  ~ In NUL pat ->
  memcmp_eq (line ++ NUL :: r) pat (length pat) = memcmp_eq line pat (length pat).
Proof.
  unfold memcmp_eq. rewrite firstn_all.
  revert line. induction pat as [|a pat IH]; intros line N.
  - reflexivity.
  - assert (Ha : Ascii.eqb NUL a = false).
    { apply Ascii.eqb_neq. intros E. apply N. left. symmetry. exact E. }
    assert (N' : ~ In NUL pat) by (intros H; apply N; now right).
    destruct line as [|c line]; cbn [length firstn app bytes_eqb].
    + rewrite Ha. reflexivity.
    + rewrite (IH line N'). reflexivity.
Qed.

Lemma memcmp_store_line (line b pat : bytes) (n : nat) :
  (n =? length pat) && negb (existsb (Ascii.eqb NUL) pat) = true ->
  memcmp_eq (store_line line b) pat n = memcmp_eq line pat n.
Proof.
  rewrite andb_true_iff, Nat.eqb_eq, negb_true_iff.
  intros [-> N]. apply memcmp_app_nul.
  intros H.
  assert (E : existsb (Ascii.eqb NUL) pat = true)
    by (apply existsb_exists; exists NUL; split; [exact H|apply Ascii.eqb_refl]).
  congruence.
Qed.

(** The lines the final loop copies: those before the first that starts
    with ["$$SOE"], each as the C string it is. *)
Fixpoint preamble (lines : list bytes) : bytes :=
  match lines with
  | [] => []
  | line :: rest =>
      if memcmp_eq line "$$SOE" 5 then [] else c_str line ++ preamble rest
  end.

Lemma copy_preamble_facts (lines : list bytes) (s : state) :
  at_end (ofile s) ->
  let s' := copy_preamble lines s in
  data (ofile s') = data (ofile s) ++ preamble lines
  /\ n_written s' = n_written s /\ epoch_of s' = epoch_of s
  /\ console s' = console s.
Proof.
  revert s. induction lines as [|line rest IH]; intros s E.
  - cbn. rewrite app_nil_r. auto.
  - cbn [copy_preamble preamble]. fields.
    rewrite (memcmp_store_line line (buff s) "$$SOE" 5) by reflexivity.
    destruct (memcmp_eq line _ 5).
    + cbn. rewrite app_nil_r. auto.
    + rewrite c_str_store_line.
      match goal with |- context [copy_preamble rest ?t] =>
        destruct (fwrite_at_end (c_str line) (ofile s) E) as [D E'];
        destruct (IH t E') as (I1 & I2 & I3 & I4)
      end.
      rewrite I1, I2, I3, I4. fields. rewrite D, app_assoc. auto.
Qed.

(** *** A file without timestamp lines *)

Lemma scan_no_timestamp (lines : list bytes) (s : state) :
  ifile s = lines ->
  Forall (fun l => is_timestamp_line l = false) lines ->
  exists s', scan s = Finished s'
    /\ n_written s' = n_written s /\ epoch_of s' = epoch_of s
    /\ ofile s' = ofile s /\ console s' = console s.
Proof.
  revert s. induction lines as [|line rest IH]; intros s I F.
  - exists s. rewrite scan_step, (loop_body_eof s I). auto.
  - inversion F as [|? ? T F']; subst.
    rewrite scan_step, (loop_body_other s line rest I T).
    match goal with |- context [detect ?t] =>
      destruct (detect_keeps t) as (D1 & D2 & D3 & D4 & D5 & D6);
      destruct (IH (detect t)) as (s' & S & I1 & I2 & I3 & I4);
        [rewrite D1; reflexivity|exact F'|]
    end.
    exists s'. rewrite I1, I2, I3, I4, D3, D4, D5, D6. auto.
Qed.

(** *** [main] with both files open *)

Definition opens (w : world) (argv : list bytes) (content : bytes) : Prop :=
  1 < length argv
  /\ fopen_rb w (nth 1 argv []) = Some content
  /\ (2 < length argv -> fopen_wb w (nth 2 argv []) = true).

Lemma main_opens (w : world) (argv : list bytes) (content : bytes) :
  opens w argv content ->
  main w argv = convert w (fgets_lines content) [].
Proof.
  intros (A & I & O). unfold main.
  destruct (1 <? length argv) eqn:A1; [|apply Nat.ltb_ge in A1; lia].
  rewrite I. cbn [non_null negb andb].
  destruct (length argv <? 2) eqn:A2; [apply Nat.ltb_lt in A2; lia|].
  destruct (2 <? length argv) eqn:A3.
  - apply Nat.ltb_lt in A3. rewrite (O A3). reflexivity.
  - reflexivity.
Qed.

Lemma before_scan_facts (w : world) (lines : list bytes) (con : bytes) :
  let s := before_scan w lines con in
  ifile s = lines /\ n_written s = 0%N
  /\ epoch_of s = (0%float, 0%float, 0%float, 0%Z)
  /\ flags_of s = (false, false, false, false)
  /\ console s = con
  /\ data (ofile s) = header_fmt 0 0 0 ++ header_suffix
  /\ at_end (ofile s).
Proof.
  cbv zeta. unfold before_scan, epoch_of, flags_of. fields.
  assert (E0 : at_end (ofile (initial_state w lines con))) by reflexivity.
  destruct (fwrite_at_end (header_fmt 0 0 0) _ E0) as [D1 E1].
  destruct (fwrite_at_end header_suffix _ E1) as [D2 E2].
  rewrite D2, D1. repeat split; try reflexivity. exact E2.
Qed.

Lemma copy_preamble_keeps (lines : list bytes) (s : state) :
  let s' := copy_preamble lines s in
  n_written s' = n_written s /\ epoch_of s' = epoch_of s
  /\ console s' = console s.
Proof.
  revert s. induction lines as [|line rest IH]; intros s.
  - cbn. auto.
  - cbn [copy_preamble]. destruct (memcmp_eq _ _ 5).
    + cbn. auto.
    + match goal with |- context [copy_preamble rest ?t] =>
        destruct (IH t) as (I1 & I2 & I3) end.
      cbv zeta. rewrite I1, I2, I3. auto.
Qed.

(** What is done after the loop: the header that ends up at the start of
    the file is printed from the final [jd0], [step_size], [n_written]. *)
Lemma finish_header (lines : list bytes) (s : state) :
  let h := header_fmt (jd0 s) (step_size s) (n_written s) in
  console (finish lines s) = console s
  /\ data (ofile (finish lines s)) =
     h ++ skipn (length h)
            (data (ofile (copy_preamble lines (set_ifile lines (fprintf trailer s))))).
Proof.
  unfold finish. cbv zeta.
  match goal with |- context [copy_preamble lines ?t] =>
    destruct (copy_preamble_keeps lines t) as (K1 & K2 & K3) end.
  unfold epoch_of in K2. fields. injection K2 as -> -> _ _.
  rewrite K1, K3. split; reflexivity.
Qed.

Lemma finish_at_end (lines : list bytes) (s : state) :
  at_end (ofile s) ->
  let h := header_fmt (jd0 s) (step_size s) (n_written s) in
  data (ofile (finish lines s)) =
  h ++ skipn (length h) (data (ofile s) ++ trailer ++ preamble lines).
Proof.
  intros E h. destruct (finish_header lines s) as [_ ->]. fold h.
  destruct (fwrite_at_end trailer (ofile s) E) as [D1 E1].
  match goal with |- context [copy_preamble lines ?t] =>
    destruct (copy_preamble_facts lines t E1) as (C1 & _) end.
  rewrite C1. fields. rewrite D1, app_assoc. reflexivity.
Qed.

(** C10.  When no line of the input passes the timestamp test, the run
    ends with code 0, whether or not a frame marker was seen; the header
    at the start of the output is the one printed from epoch 0, step size
    0 and count 0; and the trailer follows the header line directly: the
    descriptive line, which only a first sample writes, is not there. *)
Theorem no_samples_run (w : world) (argv : list bytes) (content : bytes) :
  opens w argv content ->
  Forall (fun l => is_timestamp_line l = false) (fgets_lines content) ->
  main w argv =
  {| exit_code := 0;
     messages := [];
     output := header_fmt 0 0 0 ++ header_suffix ++ trailer
               ++ preamble (fgets_lines content) |}.
Proof.
  intros O F. rewrite (main_opens w argv content O). unfold convert.
  set (lines := fgets_lines content) in *.
  destruct (before_scan_facts w lines []) as (B1 & B2 & B3 & B4 & B5 & B6 & B7).
  destruct (scan_no_timestamp lines _ B1 F) as (s' & S & N & E & OF & C).
  rewrite S. cbv zeta.
  assert (A : at_end (ofile s')) by (rewrite OF; exact B7).
  rewrite (finish_at_end lines s' A).
  destruct (finish_header lines s') as [-> _].
  rewrite C, B5, OF, B6, N, B2.
  rewrite B3 in E. unfold epoch_of in E. injection E as -> -> _ _.
  f_equal. rewrite <- !app_assoc.
  rewrite skipn_app, skipn_all, Nat.sub_diag, skipn_O. reflexivity.
Qed.

(** *** How a turn and the loop can end *)

Lemma fgets_console (s s' : state) : fgets s = Some s' -> console s' = console s.
Proof.
  unfold fgets. destruct (ifile s); [discriminate|]. intros [= <-]. reflexivity.
Qed.

Lemma loop_body_ends (s : state) :
  match loop_body s with
  | Next s' => console s' = console s
  | Leave s' => s' = s
  | Return code s' =>
      (code = (-1)%Z /\ console s' = console s ++ frame_msg)
      \/ (code = (-2)%Z /\ console s' = console s ++ truncated_msg)
  end.
Proof.
  destruct (ifile s) as [|line rest] eqn:I.
  { rewrite (loop_body_eof s I). reflexivity. }
  destruct (is_timestamp_line line) eqn:T.
  2:{ rewrite (loop_body_other s line rest I T).
      match goal with |- context [detect ?t] =>
        destruct (detect_keeps t) as (_ & _ & _ & _ & _ & ->) end.
      reflexivity. }
  rewrite (loop_body_timestamp s line rest I T).
  destruct (after_timestamp_facts s line rest T)
    as (_ & _ & _ & _ & _ & A6 & _ & _).
  destruct (Bool.eqb _ _); [left; split; reflexivity|].
  cbv zeta.
  destruct (fgets (after_timestamp s line rest)) as [s3|] eqn:F3.
  2:{ right. fields. rewrite A6. auto. }
  apply fgets_console in F3.
  destruct (negb _); [fields; congruence|].
  match goal with |- context [fgets ?t] =>
    destruct (fgets t) as [s5|] eqn:F5 end.
  - apply fgets_console in F5. fields. congruence.
  - right. fields. rewrite F3, A6. auto.
Qed.

Lemma reaches_console (s s' : state) : reaches s s' -> console s' = console s.
Proof.
  induction 1 as [|s s1 s2 H _ IH]; [reflexivity|].
  pose proof (loop_body_ends s) as E. rewrite H in E. congruence.
Qed.

Lemma scan_ends (n : nat) (s : state) :
  length (ifile s) <= n ->
  match scan s with
  | Finished s' => console s' = console s
  | Aborted code s' =>
      (code = (-1)%Z /\ console s' = console s ++ frame_msg)
      \/ (code = (-2)%Z /\ console s' = console s ++ truncated_msg)
  end.
Proof.
  revert s. induction n as [|n IH]; intros s L;
    rewrite scan_step; pose proof (loop_body_ends s) as E;
    destruct (loop_body s) as [s1|s1|code s1] eqn:B;
    try (subst; reflexivity); try exact E.
  - apply loop_body_consumes in B. lia.
  - apply loop_body_consumes in B.
    specialize (IH s1 ltac:(lia)). rewrite E in IH. exact IH.
Qed.

(** C7.  When the loop comes to a line that passes the timestamp test
    while the equatorial and the ecliptic flag are equal (neither marker
    seen, or both), the run prints the frame message and returns -1; the
    output file is left as it was when that line was reached, so nothing
    is written for that line or for any line after it. *)
Theorem frame_ambiguity_aborts
    (w : world) (argv : list bytes) (content : bytes)
    (s : state) (ts : bytes) (rest : list bytes) :
  opens w argv content ->
  reaches (before_scan w (fgets_lines content) []) s ->
  ifile s = ts :: rest ->
  is_timestamp_line ts = true ->
  is_equatorial s = is_ecliptical s ->
  main w argv =
  {| exit_code := -1; messages := frame_msg; output := data (ofile s) |}.
Proof.
  intros O R I T F. rewrite (main_opens w argv content O). unfold convert.
  rewrite (scan_reaches _ _ R), scan_step, (loop_body_timestamp s ts rest I T).
  rewrite F, Bool.eqb_reflx. fields.
  rewrite (reaches_console _ _ R).
  destruct (before_scan_facts w (fgets_lines content) [])
    as (_ & _ & _ & _ & -> & _).
  reflexivity.
Qed.

Definition ends_with (m t : bytes) : Prop := exists pre, t = pre ++ m.

(** The condition under which [main] prints the usage text. *)
Definition arg_error (w : world) (argv : list bytes) : bool :=
  let argc := length argv in
  (argc <? 2)
  || negb (non_null (if 1 <? argc then fopen_rb w (nth 1 argv []) else None))
  || negb (if 2 <? argc then fopen_wb w (nth 2 argv []) else true).

(** *** Well-formed inputs

    In a well-formed input every line that passes the timestamp test is
    followed by its coordinate lines (one, or two once the velocity
    marker has been seen), none of which passes the test itself. *)

Definition is_vx_marker (line : bytes) : bool :=
  memcmp_eq line "   VX    VY    VZ" 17.

Fixpoint well_formed (sv : bool) (lines : list bytes) : bool :=
  match lines with
  | [] => true
  | line :: rest =>
      if is_timestamp_line line then
        match rest with
        | pos :: rest1 =>
            negb (is_timestamp_line pos)
            && if sv then
                 match rest1 with
                 | vel :: rest2 =>
                     negb (is_timestamp_line vel) && well_formed sv rest2
                 | [] => false
                 end
               else well_formed sv rest1
        | [] => false
        end
      else well_formed (sv || is_vx_marker line) rest
  end.

(** The sample counter and the epoch variables after the timestamp lines
    [Q], one after the other. *)
Fixpoint epoch_after (n : N) (e : epoch) (Q : list bytes) : N * epoch :=
  match Q with
  | [] => (n, e)
  | ts :: Q' => epoch_after (wrap_unsigned (n + 1)) (sample_epoch n ts e) Q'
  end.

Lemma scan_well_formed (k : nat) (s s' : state) :
  length (ifile s) <= k ->
  well_formed (state_vectors s) (ifile s) = true ->
  scan s = Finished s' ->
  (n_written s', epoch_of s')
  = epoch_after (n_written s) (epoch_of s) (filter is_timestamp_line (ifile s)).
Proof.
  revert s. induction k as [|k IH]; intros s L W S;
    destruct (ifile s) as [|line rest] eqn:I; cbn [length] in L; try lia.
  - rewrite scan_step, (loop_body_eof s I) in S. injection S as <-. reflexivity.
  - rewrite scan_step, (loop_body_eof s I) in S. injection S as <-. reflexivity.
  - cbn [well_formed filter] in *.
    destruct (is_timestamp_line line) eqn:T.
    + destruct rest as [|pos rest1]; [discriminate|].
      apply andb_true_iff in W. destruct W as [Tp W].
      apply negb_true_iff in Tp. cbn [filter]. rewrite Tp.
      destruct (Bool.eqb (is_equatorial s) (is_ecliptical s)) eqn:F.
      { rewrite scan_step, (loop_body_timestamp s line _ I T), F in S.
        discriminate. }
      destruct (state_vectors s) eqn:V.
      * destruct rest1 as [|vel rest2]; [discriminate|].
        apply andb_true_iff in W. destruct W as [Tv W].
        apply negb_true_iff in Tv. cbn [filter]. rewrite Tv.
        destruct (loop_body_state_vector s line pos vel rest2 I T F V)
          as (s1 & B & I1 & _ & N1 & E1 & F1 & _).
        rewrite scan_step, B in S.
        unfold flags_of in F1. injection F1 as V1 _ _ _.
        cbn [epoch_after]. rewrite <- N1, <- E1, <- I1.
        apply IH; [rewrite I1; cbn [length] in L; lia
                  |rewrite I1, V1, V; exact W|exact S].
      * destruct (loop_body_position s line pos rest1 I T F V)
          as (s1 & B & I1 & _ & N1 & E1 & F1 & _).
        rewrite scan_step, B in S.
        unfold flags_of in F1. injection F1 as V1 _ _ _.
        cbn [epoch_after]. rewrite <- N1, <- E1, <- I1.
        apply IH; [rewrite I1; cbn [length] in L; lia
                  |rewrite I1, V1, V; exact W|exact S].
    + rewrite scan_step, (loop_body_other s line rest I T) in S.
      match type of S with context [detect ?t] =>
        destruct (detect_keeps t) as (D1 & _ & D3 & D4 & _);
        pose proof (detect_state_vectors t) as D7;
        specialize (IH (detect t))
      end.
      rewrite D1, D3, D4, D7 in IH.
      cbn [buff state_vectors set_ifile set_buff] in IH.
      rewrite (memcmp_store_line line (buff s) _ 17) in IH by reflexivity.
      apply IH; [cbn [ifile set_ifile]; lia|exact W|exact S].
Qed.

Definition jd_of (Q : list bytes) : float :=
  match Q with
  | l1 :: _ => atof (c_str l1)
  | [] => 0%float
  end.

(** (fractional-day difference) + (integer-day difference) of the first
    two timestamp lines. *)
Definition step_of (Q : list bytes) : float :=
  match Q with
  | l1 :: l2 :: _ =>
      (atof (str_at l2 7) - atof (str_at l1 7)
       + double_of_int (wrap_int (atoi (c_str l2) - atoi (c_str l1))))%float
  | _ => 0%float
  end.

Lemma epoch_after_settled (Q : list bytes) (n : N) (e : epoch) :
  (2 <= n)%N -> (n + N.of_nat (length Q) < 2 ^ 32)%N ->
  epoch_after n e Q = ((n + N.of_nat (length Q))%N, e).
Proof.
  revert n. induction Q as [|ts Q IH]; intros n L B.
  - cbn. now rewrite N.add_0_r.
  - cbn [epoch_after length] in *.
    assert (Wn : wrap_unsigned (n + 1) = (n + 1)%N)
      by (unfold wrap_unsigned; apply N.mod_small; lia).
    assert (Se : sample_epoch n ts e = e).
    { unfold sample_epoch. destruct e as [[[j st] f] i].
      destruct (N.eqb_spec n 0); [lia|]. destruct (N.eqb_spec n 1); [lia|].
      reflexivity. }
    rewrite Wn, Se, IH by lia. f_equal. lia.
Qed.

Lemma epoch_after_start (Q : list bytes) :
  (N.of_nat (length Q) < 2 ^ 32)%N ->
  exists f i,
    epoch_after 0 (0%float, 0%float, 0%float, 0%Z) Q
    = (N.of_nat (length Q), (jd_of Q, step_of Q, f, i)).
Proof.
  intros B. destruct Q as [|l1 [|l2 Q]].
  - do 2 eexists. reflexivity.
  - do 2 eexists. reflexivity.
  - do 2 eexists. cbn [epoch_after]. 
    change (wrap_unsigned (0 + 1)) with 1%N.
    change (wrap_unsigned (1 + 1)) with 2%N.
    cbn [length] in B.
    rewrite epoch_after_settled by lia.
    cbn [sample_epoch N.eqb Pos.eqb jd_of step_of length].
    f_equal. lia.
Qed.

(** *** The records of a well-formed input *)

(** A data record: the position of a sample on a line of its own, or
    position and velocity on one line. *)
Definition is_record (r : bytes) : Prop :=
  exists jd c,
    r = position_record jd c ++ [LF]
    \/ exists v, r = position_record jd c ++ velocity_record v.

Lemma with_descriptive_line_at_end (s : state) :
  at_end (ofile s) ->
  data (with_descriptive_line s)
  = data (ofile s)
    ++ (if (n_written s =? 0)%N then descriptive_line (object_name s) else [])
  /\ at_end (with_descriptive_line s).
Proof.
  intros E. unfold with_descriptive_line. destruct (n_written s =? 0)%N.
  - apply fwrite_at_end. exact E.
  - rewrite app_nil_r. auto.
Qed.

Lemma scan_records (k : nat) (s s' : state) :
  length (ifile s) <= k ->
  well_formed (state_vectors s) (ifile s) = true ->
  scan s = Finished s' ->
  at_end (ofile s) ->
  let Q := filter is_timestamp_line (ifile s) in
  (n_written s + N.of_nat (length Q) < 2 ^ 32)%N ->
  exists descr records,
    data (ofile s') = data (ofile s) ++ descr ++ concat records
    /\ at_end (ofile s')
    /\ length records = length Q
    /\ Forall is_record records
    /\ ((descr = [] /\ (Q = [] \/ n_written s <> 0%N))
        \/ (n_written s = 0%N /\ Q <> [] /\ exists name, descr = descriptive_line name)).
Proof.
  revert s. induction k as [|k IH]; intros s L W S A Q B;
    destruct (ifile s) as [|line rest] eqn:I; cbn [length] in L; try lia;
    try (rewrite scan_step, (loop_body_eof s I) in S; injection S as <-;
         exists [], []; cbn; rewrite app_nil_r; repeat split; auto).
  cbn [well_formed filter] in *. subst Q.
  destruct (is_timestamp_line line) eqn:T.
  - destruct rest as [|pos rest1]; [discriminate|].
    apply andb_true_iff in W. destruct W as [Tp W].
    apply negb_true_iff in Tp. cbn [filter] in *. rewrite Tp in *.
    destruct (Bool.eqb (is_equatorial s) (is_ecliptical s)) eqn:F.
    { rewrite scan_step, (loop_body_timestamp s line _ I T), F in S.
      discriminate. }
    destruct (with_descriptive_line_at_end s A) as [Dd Ad].
    assert (exists s1 rec rest',
              loop_body s = Next s1 /\ ifile s1 = rest'
              /\ length rest' <= k
              /\ well_formed (state_vectors s1) rest' = true
              /\ filter is_timestamp_line rest1
                 = filter is_timestamp_line rest'
              /\ n_written s1 = wrap_unsigned (n_written s + 1)
              /\ is_record rec
              /\ data (ofile s1) = data (with_descriptive_line s) ++ rec
              /\ at_end (ofile s1))
      as (s1 & rec & rest' & Bd & I1 & L1 & W1 & Q1 & N1 & R1 & D1 & A1).
    { destruct (state_vectors s) eqn:V.
      - destruct rest1 as [|vel rest2]; [discriminate|].
        apply andb_true_iff in W. destruct W as [Tv W].
        apply negb_true_iff in Tv.
        destruct (loop_body_state_vector s line pos vel rest2 I T F V)
          as (s1 & Bd & I1 & _ & N1 & _ & F1 & _ & _ & O1).
        unfold flags_of in F1. injection F1 as V1 _ _ _.
        destruct (fwrite_at_end
                    (position_record (atof (c_str line))
                       (position_units (in_km_s s)
                          (to_equatorial (is_ecliptical s)
                             (raw_coords (store_line pos (store_line line (buff s)))))))
                    _ Ad) as [Dp Ap].
        match type of O1 with _ = fwrite ?v _ =>
          destruct (fwrite_at_end v _ Ap) as [Dv Av] end.
        eexists s1, _, rest2.
        split; [exact Bd|]. split; [exact I1|].
        split; [cbn [length] in L; lia|].
        split; [rewrite V1, V; exact W|].
        split; [cbn [filter]; rewrite Tv; reflexivity|].
        split; [exact N1|].
        split; [do 2 eexists; right; eexists; reflexivity|].
        split; [rewrite O1, Dv, Dp, <- app_assoc; reflexivity|].
        rewrite O1. exact Av.
      - destruct (loop_body_position s line pos rest1 I T F V)
          as (s1 & Bd & I1 & _ & N1 & _ & F1 & _ & _ & O1).
        unfold flags_of in F1. injection F1 as V1 _ _ _.
        destruct (fwrite_at_end
                    (position_record (atof (c_str line))
                       (position_units (in_km_s s)
                          (to_equatorial (is_ecliptical s)
                             (raw_coords (store_line pos (store_line line (buff s)))))))
                    _ Ad) as [Dp Ap].
        destruct (fwrite_at_end [LF] _ Ap) as [Dv Av].
        eexists s1, _, rest1.
        split; [exact Bd|]. split; [exact I1|].
        split; [cbn [length] in L; lia|].
        split; [rewrite V1, V; exact W|].
        split; [reflexivity|].
        split; [exact N1|].
        split; [do 2 eexists; left; reflexivity|].
        split; [rewrite O1, Dv, Dp, <- app_assoc; reflexivity|].
        rewrite O1. exact Av. }
    rewrite scan_step, Bd in S. rewrite Q1 in B. cbn [length] in B.
    assert (Wn : wrap_unsigned (n_written s + 1) = (n_written s + 1)%N)
      by (unfold wrap_unsigned; apply N.mod_small; lia).
    rewrite Wn in N1.
    destruct (IH s1) as (descr & records & D & A' & Lr & Fr & C);
      try assumption; try (rewrite I1; assumption).
    { rewrite I1, N1. lia. }
    rewrite I1 in *.
    assert (descr = []) as -> by (destruct C as [[C _]|[C _]]; [exact C|lia]).
    exists (if (n_written s =? 0)%N then descriptive_line (object_name s) else []),
           (rec :: records).
    rewrite Q1. cbn [concat length]. repeat split.
    + rewrite D, D1, Dd. cbn [app]. rewrite <- !app_assoc. reflexivity.
    + exact A'.
    + now rewrite Lr.
    + constructor; assumption.
    + destruct (N.eqb_spec (n_written s) 0) as [Z|Z].
      * right. repeat split; [exact Z|discriminate|eexists; reflexivity].
      * left. auto.
  - rewrite scan_step, (loop_body_other s line rest I T) in S.
    match type of S with context [detect ?t] =>
      destruct (detect_keeps t) as (D1 & _ & D3 & _ & D5 & _);
      pose proof (detect_state_vectors t) as D7;
      specialize (IH (detect t))
    end.
    rewrite D1, D3, D5, D7 in IH.
    cbn [buff state_vectors n_written ofile ifile set_ifile set_buff] in IH.
    rewrite (memcmp_store_line line (buff s) _ 17) in IH by reflexivity.
    apply IH; try assumption. lia.
Qed.

(** What the output is when the patched header is as long as the
    provisional one: the header, the suffix, the descriptive line of the
    first sample, one record for each timestamp line, the trailer and the
    preamble. *)
Lemma output_when_header_fits
    (w : world) (argv : list bytes) (content : bytes) :
  opens w argv content ->
  let lines := fgets_lines content in
  let Q := filter is_timestamp_line lines in
  let h := header_fmt (jd_of Q) (step_of Q) (N.of_nat (length Q)) in
  well_formed false lines = true ->
  (N.of_nat (length Q) < 2 ^ 32)%N ->
  exit_code (main w argv) = 0%Z ->
  length h = length (header_fmt 0 0 0) ->
  exists descr records,
    output (main w argv)
    = h ++ header_suffix ++ descr ++ concat records ++ trailer ++ preamble lines
    /\ length records = length Q
    /\ Forall is_record records
    /\ ((descr = [] /\ Q = []) \/ exists name, descr = descriptive_line name).
Proof.
  intros O lines Q h W B. rewrite (main_opens w argv content O). unfold convert.
  fold lines.
  destruct (before_scan_facts w lines []) as (B1 & B2 & B3 & B4 & _ & B6 & B7).
  destruct (scan (before_scan w lines [])) as [s'|code s'] eqn:S.
  2:{ cbn [exit_code]. intros ->.
      pose proof (scan_ends _ (before_scan w lines []) (Nat.le_refl _)) as E.
      rewrite S in E. destruct E as [[E _]|[E _]]; discriminate. }
  intros _ Hl. cbv zeta. cbn [output].
  assert (V : state_vectors (before_scan w lines []) = false) by reflexivity.
  pose proof (scan_well_formed _ (before_scan w lines []) s' (Nat.le_refl _)) as C.
  pose proof (scan_records _ (before_scan w lines []) s' (Nat.le_refl _)) as R.
  rewrite V, B1, B2, B3 in C. specialize (C W S). fold Q in C.
  rewrite V, B1, B2 in R. specialize (R W S B7). cbv zeta in R. fold Q in R.
  destruct (R B) as (descr & records & D & A & Lr & Fr & Cd).
  destruct (epoch_after_start Q B) as (f & i & E). rewrite E in C.
  unfold epoch_of in C. injection C as N1 J1 S1 _ _.
  rewrite (finish_at_end lines s' A), N1, J1, S1. fold h.
  exists descr, records. repeat split; try assumption.
  - f_equal. rewrite D, B6, Hl, <- !app_assoc.
    rewrite skipn_app, skipn_all, Nat.sub_diag, skipn_O. reflexivity.
  - destruct Cd as [[-> [Cd|Cd]]|(_ & _ & Cd)]; [left; auto|congruence|right; exact Cd].
Qed.

End Loop.

(* ------------------------------------------------------------------ *)
(** ** Runs on the sample inputs *)

Module Runs.
Import Examples.
#[local] Existing Instance Glibc.platform.

Definition first_line (text : bytes) : bytes :=
  (fix go (t : bytes) : bytes :=
     match t with
     | [] => []
     | c :: t' => if Ascii.eqb c LF then [] else c :: go t'
     end) text.

(** C1, the program at an input it mishandles.  The input is a
    well-formed equatorial ephemeris of two samples, the second 1000 days
    after the first.  The run succeeds and there are two timestamp lines,
    but the step size prints in 15 characters, the patched header is 34
    characters long instead of 33, and its last character replaces the
    blank of the suffix [" 0,1,1"]: the first line of the output does not
    end with that suffix.  A count of 10000 samples makes the header one
    character too long in the same way. *)
Theorem header_overrun :
  let r := @main Glibc.platform (world_of thousand_days) argv2 in
  let lines := fgets_lines thousand_days in
  @well_formed Glibc.platform false lines = true
  /\ length (filter (@is_timestamp_line Glibc.platform) lines) = 2
  /\ exit_code r = 0%Z
  /\ length (@header_fmt Glibc.platform 0 0 0) = 33
  /\ @header_fmt Glibc.platform 2458765.5 1000 2
     = "2458765.50000 1000.0000000000    2"
  /\ length (@header_fmt Glibc.platform 2458765.5 1000 2) = 34
  /\ first_line (output r) = "2458765.50000 1000.0000000000    20,1,1"
  /\ ~ ends_with header_suffix (first_line (output r))
  /\ length (@header_fmt Glibc.platform 2458765.5 1 10000) = 34.
Proof.
  cbv zeta.
  repeat match goal with |- _ /\ _ => split end;
    try (vm_compute; reflexivity).
  intros [pre E].
  apply (f_equal (fun t => firstn 6 (rev t))) in E.
  rewrite rev_app_distr in E. vm_compute in E. discriminate.
Qed.

(** C8 as stated fails: a run without arguments and a run on an input
    with no frame line end with different messages but with the same
    exit code. *)
Lemma error_codes_coincide :
  let r_arg := @main Glibc.platform (world_of two_days) argv0 in
  let r_frame := @main Glibc.platform (world_of no_frame) argv2 in
  messages r_arg = usage_msg
  /\ messages r_frame = frame_msg
  /\ exit_code r_arg = (-1)%Z
  /\ exit_code r_frame = (-1)%Z
  /\ ~ exit_code r_arg <> exit_code r_frame.
Proof. vm_compute. repeat split. intros H. apply H. reflexivity. Qed.

(** With three arguments and the sample world both files open. *)
Lemma opens_world_of (content : bytes) : opens (world_of content) argv2 content.
Proof. repeat split. cbn. lia. Defined.

(** Index 17 of the first sample timestamp line is read, and is the
    blank before ["= A.D."]. *)
Lemma timestamp_test_in_bounds_witness :
  17 < length ts1 /\ idx (store_line ts1 []) 17 = " "%char.
Proof.
  destruct (@timestamp_test_in_bounds Glibc.platform ts1 [] 17)
    as (_ & _ & H & H' & _).
  - vm_compute. left. reflexivity.
  - split; [exact H|exact H'].
Defined.

(** The velocity line of the ecliptic sample state, rotated. *)
Lemma ecliptic_rotation_witness :
  @get_coords_from_buff Glibc.platform v_labelled true
  = rotate (0.01, 0.02, 0.03)%float.
Proof.
  refine (eq_trans
            (proj1 (@ecliptic_rotation Glibc.platform ecliptic_km_state
                      ts1 xyz_km [v_labelled] _ _ _ _) v_labelled) _);
    vm_compute; reflexivity.
Defined.

(** One astronomical unit along x, in km, with a velocity in km/s:
    the record written has position (1, 0, 0). *)
Lemma km_s_conversion_witness :
  exists s',
    @loop_body Glibc.platform ecliptic_km_state = Next s'
    /\ data (ofile s')
       = "2458765.50000    1.0000000000    0.0000000000    0.0000000000"
         ++ "   0.000005775483  0.000003705739  0.000020491418" ++ [LF].
Proof.
  destruct (@km_s_conversion Glibc.platform ecliptic_km_state ts1 xyz_km [v_labelled])
    as (_ & H & _); try (vm_compute; reflexivity).
  destruct (H eq_refl v_labelled [] eq_refl) as (s' & B & O).
  exists s'. split; [exact B|]. rewrite O. vm_compute. reflexivity.
Defined.

(** A data section with no frame line before it: nothing but the
    provisional header is in the output. *)
Lemma frame_ambiguity_aborts_witness :
  @main Glibc.platform (world_of bare) argv2
  = {| exit_code := -1; messages := frame_msg;
       output := "      0.00000   0.0000000000    0 0,1,1" |}.
Proof.
  rewrite (@frame_ambiguity_aborts Glibc.platform (world_of bare) argv2 bare
             (before_scan (world_of bare) (fgets_lines bare) []) ts1 [xyz_labelled]).
  - vm_compute. reflexivity.
  - apply opens_world_of.
  - apply reaches_here.
  - vm_compute. reflexivity.
  - vm_compute. reflexivity.
  - reflexivity.
Defined.

(** A report with an empty data section. *)
Lemma no_samples_run_witness :
  output (@main Glibc.platform (world_of no_data) argv2)
  = "      0.00000   0.0000000000    0 0,1,1" ++ [LF; LF]
    ++ "Created from Horizons data by 'jpl2mpc', ver Oct 29 2026" ++ [LF]
    ++ "Target body name: Gaia (spacecraft) (-139479)" ++ [LF]
    ++ "Output units    : KM-S" ++ [LF].
Proof.
  rewrite (@no_samples_run Glibc.platform (world_of no_data) argv2 no_data).
  - vm_compute. reflexivity.
  - apply opens_world_of.
  - apply Forall_forall. intros l H.
    apply negb_true_iff.
    revert l H. apply forallb_forall. vm_compute. reflexivity.
Defined.

End Runs.

(* ------------------------------------------------------------------ *)
(** * Further properties of the program *)

(** ** The name table *)

(** The identifiers [look_up_name] knows. *)
Definition known_ids : list Z :=
  [-21; -48; -82; -234; -235; -144; -95; -79; -96; -98; -151; -163;
   -139479; -9901491; -37]%Z.

Lemma look_up_name_known (idx : Z) :
  look_up_name idx <> [] -> In idx known_ids.
Proof.
  unfold look_up_name, known_ids.
  repeat match goal with
         | |- context [(idx =? ?c)%Z] =>
             destruct (Z.eqb_spec idx c); [subst; intros _; simpl; tauto|]
         end.
  intros H. exfalso. apply H. reflexivity.
Qed.

(** X1.  Only the fifteen identifiers of the table resolve to a name; all
    of them are negative, so an identifier that is not negative gives the
    empty name.  No two identifiers share a name, and a name holds no
    line feed and no NUL: the descriptive text it is printed in stays on
    one line. *)
Theorem look_up_name_hit (idx : Z) :
  look_up_name idx <> [] ->
  In idx known_ids
  /\ (idx < 0)%Z
  /\ (forall idx', look_up_name idx' = look_up_name idx -> idx' = idx)
  /\ ~ In LF (look_up_name idx) /\ ~ In NUL (look_up_name idx).
Proof.
  intros H. pose proof (look_up_name_known idx H) as K.
  split; [exact K|].
  assert (A : forallb (fun i =>
                (i <? 0)%Z
                && negb (existsb (Ascii.eqb LF) (look_up_name i))
                && negb (existsb (Ascii.eqb NUL) (look_up_name i))
                && forallb (fun j => Z.eqb i j
                                     || negb (bytes_eqb (look_up_name j) (look_up_name i)))
                     known_ids) known_ids = true) by (vm_compute; reflexivity).
  rewrite forallb_forall in A. specialize (A idx K).
  rewrite !andb_true_iff, !negb_true_iff, Z.ltb_lt in A.
  destruct A as [[[A1 A2] A3] A4].
  assert (N : forall c, existsb (Ascii.eqb c) (look_up_name idx) = false ->
                        ~ In c (look_up_name idx)).
  { intros c E I.
    assert (existsb (Ascii.eqb c) (look_up_name idx) = true)
      by (apply existsb_exists; exists c; split; [exact I|apply Ascii.eqb_refl]).
    congruence. }
  repeat split; auto.
  intros idx' E.
  assert (K' : In idx' known_ids)
    by (apply look_up_name_known; rewrite E; exact H).
  rewrite forallb_forall in A4. specialize (A4 idx' K').
  apply orb_true_iff in A4. destruct A4 as [A4|A4].
  - apply Z.eqb_eq in A4. congruence.
  - apply negb_true_iff in A4.
    assert (bytes_eqb (look_up_name idx') (look_up_name idx) = true)
      by (apply bytes_eqb_eq; exact E).
    congruence.
Qed.

(** ** The turns of the scanning loop, by the lines they take *)

Section Turns.
Context {P : Platform}.

(** What a completed sample leaves behind. *)
Definition sample_done (s s' : state) (ts : bytes) (last : bytes) : Prop :=
  buff s' = last
  /\ n_written s' = wrap_unsigned (n_written s + 1)
  /\ epoch_of s' = sample_epoch (n_written s) ts (epoch_of s)
  /\ flags_of s' = flags_of s /\ object_name s' = object_name s
  /\ console s' = console s.

(** Every turn is of one of six kinds: the end of the file; a header
    line; a sample of two or of three lines; an unresolved frame; a
    sample cut short by the end of the file. *)
Lemma turn_cases (s : state) :
  match loop_body s with
  | Leave s' => ifile s = [] /\ s' = s
  | Next s' =>
      (exists line,
          ifile s = line :: ifile s' /\ is_timestamp_line line = false
          /\ s' = detect (set_ifile (ifile s') (set_buff (store_line line (buff s)) s)))
      \/ (exists ts pos,
          ifile s = ts :: pos :: ifile s' /\ is_timestamp_line ts = true
          /\ Bool.eqb (is_equatorial s) (is_ecliptical s) = false
          /\ state_vectors s = false
          /\ sample_done s s' ts (store_line pos (store_line ts (buff s)))
          /\ ofile s' =
             fwrite [LF]
               (fwrite (position_record (atof (c_str ts))
                          (position_units (in_km_s s)
                             (to_equatorial (is_ecliptical s)
                                (raw_coords (store_line pos (store_line ts (buff s)))))))
                  (with_descriptive_line s)))
      \/ (exists ts pos vel,
          ifile s = ts :: pos :: vel :: ifile s' /\ is_timestamp_line ts = true
          /\ Bool.eqb (is_equatorial s) (is_ecliptical s) = false
          /\ state_vectors s = true
          /\ sample_done s s' ts
               (store_line vel (store_line pos (store_line ts (buff s))))
          /\ ofile s' =
             fwrite (velocity_record
                       (velocity_units (in_km_s s)
                          (to_equatorial (is_ecliptical s)
                             (raw_coords
                                (store_line vel
                                   (store_line pos (store_line ts (buff s))))))))
               (fwrite (position_record (atof (c_str ts))
                          (position_units (in_km_s s)
                             (to_equatorial (is_ecliptical s)
                                (raw_coords (store_line pos (store_line ts (buff s)))))))
                  (with_descriptive_line s)))
  | Return code s' =>
      exists ts rest,
        ifile s = ts :: rest /\ is_timestamp_line ts = true
        /\ ((code = (-1)%Z /\ is_equatorial s = is_ecliptical s
             /\ ofile s' = ofile s)
            \/ (code = (-2)%Z
                /\ Bool.eqb (is_equatorial s) (is_ecliptical s) = false
                /\ ((rest = [] /\ ofile s' = with_descriptive_line s)
                    \/ (state_vectors s = true
                        /\ exists pos,
                            rest = [pos]
                            /\ ofile s' =
                               fwrite (position_record (atof (c_str ts))
                                         (position_units (in_km_s s)
                                            (to_equatorial (is_ecliptical s)
                                               (raw_coords
                                                  (store_line pos
                                                     (store_line ts (buff s)))))))
                                 (with_descriptive_line s)))))
  end.
Proof.
  destruct (ifile s) as [|line rest] eqn:I.
  { rewrite (loop_body_eof s I). auto. }
  destruct (is_timestamp_line line) eqn:T.
  2:{ rewrite (loop_body_other s line rest I T). left. exists line.
      match goal with |- context [detect ?t] =>
        destruct (detect_keeps t) as (D1 & _) end.
      rewrite D1. fields. auto. }
  destruct (Bool.eqb (is_equatorial s) (is_ecliptical s)) eqn:F.
  { rewrite (loop_body_timestamp s line rest I T), F.
    exists line, rest. split; [first [assumption|reflexivity]|]. split; [first [assumption|reflexivity]|]. left.
    apply Bool.eqb_prop in F. fields. auto. }
  destruct rest as [|pos rest1].
  { rewrite (loop_body_timestamp s line [] I T), F. cbv zeta.
    destruct (after_timestamp_facts s line [] T)
      as (A1 & _ & _ & _ & _ & _ & A7 & _).
    unfold fgets. rewrite A1.
    exists line, []. split; [first [assumption|reflexivity]|]. split; [first [assumption|reflexivity]|]. right.
    split; [first [assumption|reflexivity]|]. split; [first [assumption|reflexivity]|].
    left. fields. auto. }
  destruct (state_vectors s) eqn:V.
  - destruct rest1 as [|vel rest2].
    + rewrite (loop_body_timestamp s line [pos] I T), F. cbv zeta.
      destruct (after_timestamp_facts s line [pos] T)
        as (A1 & A2 & _ & A4 & _ & _ & A7 & _).
      rewrite (fgets_cons _ pos [] A1).
      unfold flags_of in A4. injection A4 as V4 _ E4 K4.
      fields. rewrite V4, V, K4, E4, A2. cbn [negb].
      unfold fgets. fields.
      exists line, [pos]. split; [first [assumption|reflexivity]|]. split; [first [assumption|reflexivity]|]. right.
      split; [first [assumption|reflexivity]|]. split; [first [assumption|reflexivity]|].
      right. split; [first [assumption|reflexivity]|]. exists pos. split; [first [assumption|reflexivity]|].
      fields. rewrite A7. reflexivity.
    + destruct (loop_body_state_vector s line pos vel rest2 I T F V)
        as (s' & B & I1 & B1 & N1 & E1 & F1 & O1 & C1 & W1).
      rewrite B. right. right. exists line, pos, vel.
      rewrite I1. unfold sample_done. repeat split; auto.
  - destruct (loop_body_position s line pos rest1 I T F V)
      as (s' & B & I1 & B1 & N1 & E1 & F1 & O1 & C1 & W1).
    rewrite B. right. left. exists line, pos.
    rewrite I1. unfold sample_done. repeat split; auto.
Qed.

End Turns.

(** ** The settings read from the header lines *)

Section Settings.
Context {P : Platform}.

Lemma reaches_trans (s1 s2 s3 : state) :
  reaches s1 s2 -> reaches s2 s3 -> reaches s1 s3.
Proof.
  induction 1 as [|s s1 s2 H _ IH]; [auto|].
  intros R. eapply reaches_next; [exact H|]. apply IH. exact R.
Qed.

(** A flag that is on stays on. *)
Definition flags_kept (s s' : state) : Prop :=
  (state_vectors s = true -> state_vectors s' = true)
  /\ (is_equatorial s = true -> is_equatorial s' = true)
  /\ (is_ecliptical s = true -> is_ecliptical s' = true)
  /\ (in_km_s s = true -> in_km_s s' = true).

Lemma detect_flags_kept (s : state) : flags_kept s (detect s).
Proof.
  unfold flags_kept, detect.
  repeat match goal with
         | |- context [if ?c then _ else _] => destruct c
         | |- context [match ?c with Some _ => _ | None => _ end] => destruct c
         end; fields; auto.
Qed.

Lemma turn_flags_kept (s s' : state) :
  loop_body s = Next s' -> flags_kept s s'.
Proof.
  intros B. pose proof (turn_cases s) as C. rewrite B in C.
  destruct C as [(line & _ & _ & ->)
                |[(ts & pos & _ & _ & _ & _ & D & _)
                 |(ts & pos & vel & _ & _ & _ & _ & D & _)]].
  - match goal with |- flags_kept _ (detect ?t) =>
      pose proof (detect_flags_kept t) as K end.
    unfold flags_kept in *. fields. exact K.
  - destruct D as (_ & _ & _ & F & _). unfold flags_of in F.
    injection F as F1 F2 F3 F4. unfold flags_kept.
    rewrite F1, F2, F3, F4. auto.
  - destruct D as (_ & _ & _ & F & _). unfold flags_of in F.
    injection F as F1 F2 F3 F4. unfold flags_kept.
    rewrite F1, F2, F3, F4. auto.
Qed.

Lemma reaches_flags_kept (s s' : state) : reaches s s' -> flags_kept s s'.
Proof.
  induction 1 as [|s s1 s2 H _ IH]; [unfold flags_kept; auto|].
  pose proof (turn_flags_kept s s1 H) as K. unfold flags_kept in *.
  intuition auto.
Qed.

(** X2.  None of the four flags (velocities present, equatorial,
    ecliptic, km and km/s) is ever reset: one that is on when the loop is
    at its condition is on whenever the loop comes back to it. *)
Theorem flags_never_reset (s s' : state) :
  reaches s s' ->
  (state_vectors s = true -> state_vectors s' = true)
  /\ (is_equatorial s = true -> is_equatorial s' = true)
  /\ (is_ecliptical s = true -> is_ecliptical s' = true)
  /\ (in_km_s s = true -> in_km_s s' = true).
Proof.
  induction 1 as [|s s1 s2 H _ IH]; [auto|].
  pose proof (turn_flags_kept s s1 H) as K. unfold flags_kept in K.
  intuition auto.
Qed.

(** X3.  A line that passes the timestamp test is never read as a
    header line: the turn that takes it as a sample leaves the four flags
    and the object name as they were, whatever text the line and its
    coordinate lines carry. *)
Theorem sample_keeps_settings (s s' : state) (ts : bytes) (rest : list bytes) :
  ifile s = ts :: rest ->
  is_timestamp_line ts = true ->
  loop_body s = Next s' ->
  flags_of s' = flags_of s /\ object_name s' = object_name s
  /\ n_written s' = wrap_unsigned (n_written s + 1).
Proof.
  intros I T B. pose proof (turn_cases s) as C. rewrite B in C.
  destruct C as [(line & I' & T' & _)
                |[(ts' & pos & _ & _ & _ & _ & D & _)
                 |(ts' & pos & vel & _ & _ & _ & _ & D & _)]].
  - rewrite I in I'. injection I' as <- _. congruence.
  - destruct D as (_ & N & _ & F & O & _). auto.
  - destruct D as (_ & N & _ & F & O & _). auto.
Qed.

(** X4.  Once both frame markers have been seen, no further sample is
    written: if both frame flags are on when the loop is at its
    condition, the next line the loop reaches that passes the timestamp
    test ends the run with code -1 and the frame message, and the output
    file stays as it was when that line was reached. *)
Theorem contradicting_frames_abort
    (w : world) (argv : list bytes) (content : bytes)
    (s s' : state) (ts : bytes) (rest : list bytes) :
  opens w argv content ->
  reaches (before_scan w (fgets_lines content) []) s ->
  is_equatorial s = true -> is_ecliptical s = true ->
  reaches s s' ->
  ifile s' = ts :: rest ->
  is_timestamp_line ts = true ->
  main w argv =
  {| exit_code := -1; messages := frame_msg; output := data (ofile s') |}.
Proof.
  intros O R Q E R' I T.
  destruct (reaches_flags_kept s s' R') as (_ & Q' & E' & _).
  pose proof (reaches_trans _ _ _ R R') as R2.
  rewrite (main_opens w argv content O). unfold convert.
  rewrite (scan_reaches _ _ R2), scan_step, (loop_body_timestamp s' ts rest I T).
  rewrite (Q' Q), (E' E). cbn [Bool.eqb]. fields.
  rewrite (reaches_console _ _ R2).
  destruct (before_scan_facts w (fgets_lines content) [])
    as (_ & _ & _ & _ & -> & _).
  reflexivity.
Qed.

End Settings.

(** ** Header lines and the bytes of earlier lines *)

Section HeaderLines.
Context {P : Platform}.

(** The header-line tests on the buffer, in terms of the line just read;
    only the identifier of a [" Revised:"] line is read at a fixed
    offset, which a short line does not reach. *)
Lemma detect_store_line (s : state) (line old : bytes) :
  let b := store_line line old in
  detect (set_buff b s) =
  let t := c_str line in
  let s := set_buff b s in
  if memcmp_eq line "   VX    VY    VZ" 17 then set_state_vectors true s
  else if non_null (strstr t "Earth Mean Equator and Equinox")
       then set_is_equatorial true s
  else if non_null (strstr t "Reference frame : ICRF") then set_is_equatorial true s
  else if non_null (strstr t "Ecliptic and Mean Equinox of Reference Epoch")
       then set_is_ecliptical true s
  else if non_null (strstr t "Reference frame : Ecliptic of J2000")
       then set_is_ecliptical true s
  else if memcmp_eq line " Revised:" 9
       then set_object_name (look_up_name (atoi (str_at b 71))) s
  else if memcmp_eq line "Target body name:" 17 then
       match strstr t "(-" with
       | Some tptr => set_object_name (look_up_name (atoi (tl tptr))) s
       | None => s
       end
  else if memcmp_eq line "Output units    : KM-S" 22 then set_in_km_s true s
  else s.
Proof.
  cbv zeta. unfold detect. fields.
  rewrite (memcmp_store_line line old "   VX    VY    VZ" 17) by reflexivity.
  rewrite (memcmp_store_line line old " Revised:" 9) by reflexivity.
  rewrite (memcmp_store_line line old "Target body name:" 17) by reflexivity.
  rewrite (memcmp_store_line line old "Output units    : KM-S" 22) by reflexivity.
  rewrite !c_str_store_line. reflexivity.
Qed.

(** X5.  What a header line does to the flags and to the object name is
    decided by that line alone, not by what earlier lines left in the
    buffer, provided the line does not start with [" Revised:"] or is at
    least 71 bytes long. *)
Theorem header_line_read_alone (s : state) (line old old' : bytes) :
  memcmp_eq line " Revised:" 9 = false \/ 71 <= length line ->
  let after b := detect (set_buff (store_line line b) s) in
  flags_of (after old) = flags_of (after old')
  /\ object_name (after old) = object_name (after old').
Proof.
  intros H. cbv beta zeta. rewrite !detect_store_line. cbv zeta.
  destruct (memcmp_eq line "   VX    VY    VZ" 17); [split; reflexivity|].
  destruct (non_null (strstr (c_str line) "Earth Mean Equator and Equinox"));
    [split; reflexivity|].
  destruct (non_null (strstr (c_str line) "Reference frame : ICRF"));
    [split; reflexivity|].
  destruct (non_null (strstr (c_str line)
                        "Ecliptic and Mean Equinox of Reference Epoch"));
    [split; reflexivity|].
  destruct (non_null (strstr (c_str line) "Reference frame : Ecliptic of J2000"));
    [split; reflexivity|].
  destruct (memcmp_eq line " Revised:" 9) eqn:R.
  - destruct H as [H|H]; [discriminate|].
    rewrite !str_at_store_line by exact H. split; reflexivity.
  - repeat match goal with
           | |- context [if ?c then _ else _] => destruct c
           | |- context [match ?c with Some _ => _ | None => _ end] => destruct c
           end; split; reflexivity.
Qed.

Lemma str_at_beyond_line (line old : bytes) (off : nat) :
  length line < off -> str_at (store_line line old) off = str_at old off.
Proof.
  intros H. unfold str_at, store_line. f_equal.
  rewrite skipn_app, skipn_all2 by lia. cbn [app].
  replace (off - length line) with (S (off - S (length line))) by lia.
  set (tail := skipn (S (length line)) old). cbn [skipn]. subst tail.
  rewrite skipn_skipn. f_equal. lia.
Qed.

(** X6.  A line that starts with [" Revised:"], carries no frame marker
    and is shorter than 71 bytes does not hold the identifier that is
    read at offset 71: the object name is looked up from the bytes an
    earlier line (or the uninitialised buffer) left there. *)
Theorem short_revised_line_reads_old_bytes (s : state) (line old : bytes) :
  memcmp_eq line " Revised:" 9 = true ->
  length line < 71 ->
  strstr (c_str line) "Earth Mean Equator and Equinox" = None ->
  strstr (c_str line) "Reference frame : ICRF" = None ->
  strstr (c_str line) "Ecliptic and Mean Equinox of Reference Epoch" = None ->
  strstr (c_str line) "Reference frame : Ecliptic of J2000" = None ->
  object_name (detect (set_buff (store_line line old) s))
  = look_up_name (atoi (str_at old 71)).
Proof.
  intros R L E1 E2 E3 E4. rewrite detect_store_line. cbv zeta.
  rewrite E1, E2, E3, E4, R. cbn [non_null].
  assert (V : memcmp_eq line "   VX    VY    VZ" 17 = false).
  { unfold memcmp_eq in *. apply bytes_eqb_eq in R.
    destruct line as [|c0 [|c1 line]]; try discriminate.
    cbn in R. injection R as _ -> _. cbn.
    apply andb_false_r. }
  rewrite V. fields. rewrite str_at_beyond_line by exact L. reflexivity.
Qed.

End HeaderLines.

(** ** Inputs that end too early, and inputs that do not *)

Section Truncation.
Context {P : Platform}.

(** X7.  When the loop comes to a line that passes the timestamp test
    with the frame resolved, and the file ends right after it (or, with
    velocities expected, after one more line), the run prints the
    truncation message and returns -2.  What the sample had written by
    then stays in the output: the descriptive text if it is the first
    sample and, in the second case, the position without a line end; the
    header is still the provisional one. *)
Theorem truncated_input_aborts
    (w : world) (argv : list bytes) (content : bytes)
    (s : state) (ts : bytes) (rest : list bytes) :
  opens w argv content ->
  reaches (before_scan w (fgets_lines content) []) s ->
  ifile s = ts :: rest ->
  is_timestamp_line ts = true ->
  is_equatorial s <> is_ecliptical s ->
  rest = [] \/ (state_vectors s = true /\ length rest = 1) ->
  main w argv =
  {| exit_code := -2;
     messages := truncated_msg;
     output :=
       data match rest with
            | [] => with_descriptive_line s
            | pos :: _ =>
                fwrite (position_record (atof (c_str ts))
                          (position_units (in_km_s s)
                             (to_equatorial (is_ecliptical s)
                                (raw_coords (store_line pos (store_line ts (buff s)))))))
                  (with_descriptive_line s)
            end |}.
Proof.
  intros O R I T F Sh.
  rewrite (main_opens w argv content O). unfold convert.
  rewrite (scan_reaches _ _ R), scan_step.
  pose proof (turn_cases s) as C. pose proof (loop_body_ends s) as E.
  pose proof (reaches_console _ _ R) as K.
  destruct (before_scan_facts w (fgets_lines content) [])
    as (_ & _ & _ & _ & K0 & _).
  rewrite K0 in K.
  destruct (loop_body s) as [s'|s'|code s'].
  - exfalso.
    destruct C as [(line & I' & T' & _)
                  |[(ts' & pos & I' & _ & _ & V & _)
                   |(ts' & pos & vel & I' & _)]];
      rewrite I in I'.
    + injection I' as <- _. congruence.
    + injection I' as _ ->. destruct Sh as [Sh|[Sh _]]; congruence.
    + injection I' as _ ->. destruct Sh as [Sh|[_ Sh]]; [discriminate|].
      cbn in Sh. lia.
  - destruct C as [C _]. congruence.
  - destruct C as (ts' & rest' & I' & _ & C). rewrite I in I'.
    injection I' as <- <-.
    destruct C as [(_ & C & _)|(-> & _ & C)]; [contradiction|].
    destruct E as [[E _]|[_ E]]; [discriminate|].
    rewrite E, K. cbn [app].
    destruct C as [[-> C]|(_ & pos & -> & C)]; rewrite C; reflexivity.
Qed.

(** On a well-formed input the loop ends at the end of the file or with
    code -1. *)
Lemma scan_well_formed_code (k : nat) (s : state) :
  length (ifile s) <= k ->
  well_formed (state_vectors s) (ifile s) = true ->
  match scan s with
  | Finished _ => True
  | Aborted code _ => code = (-1)%Z
  end.
Proof.
  revert s. induction k as [|k IH]; intros s L W;
    rewrite scan_step; pose proof (turn_cases s) as C;
    destruct (loop_body s) as [s'|s'|code s'] eqn:B; auto.
  - apply loop_body_consumes in B. lia.
  - destruct C as (ts & rest & I & T & C). rewrite I in W.
    cbn [well_formed] in W. rewrite T in W.
    destruct C as [(-> & _)|(_ & _ & C)]; [reflexivity|]. exfalso.
    destruct C as [[-> _]|(V & pos & -> & _)]; [discriminate|].
    rewrite V in W. apply andb_true_iff in W. destruct W as [_ W]. discriminate.
  - apply loop_body_consumes in B as B'.
    apply IH; [lia|].
    destruct C as [(line & I & T & ->)
                  |[(ts & pos & I & T & _ & V & D & _)
                   |(ts & pos & vel & I & T & _ & V & D & _)]];
      rewrite I in W; cbn [well_formed] in W; rewrite T in W.
    + match goal with |- context [detect ?t] =>
        destruct (detect_keeps t) as (D1 & _);
        pose proof (detect_state_vectors t) as D7 end.
      rewrite D1, D7. fields.
      rewrite (memcmp_store_line line (buff s) _ 17) by reflexivity.
      exact W.
    + destruct D as (_ & _ & _ & Fl & _). unfold flags_of in Fl.
      injection Fl as -> _ _ _. rewrite V in *.
      apply andb_true_iff in W. tauto.
    + destruct D as (_ & _ & _ & Fl & _). unfold flags_of in Fl.
      injection Fl as -> _ _ _. rewrite V in *.
      apply andb_true_iff in W. destruct W as [_ W].
      apply andb_true_iff in W. tauto.
  - destruct C as (ts & rest & I & T & C). rewrite I in W.
    cbn [well_formed] in W. rewrite T in W.
    destruct C as [(-> & _)|(_ & _ & C)]; [reflexivity|]. exfalso.
    destruct C as [[-> _]|(V & pos & -> & _)]; [discriminate|].
    rewrite V in W. apply andb_true_iff in W. destruct W as [_ W]. discriminate.
Qed.

(** X8.  A well-formed input, in which every timestamp line has its
    coordinate lines, never ends with the truncation error: the run
    returns 0, or -1 when a sample is reached with the frame
    unresolved. *)
Theorem well_formed_not_truncated
    (w : world) (argv : list bytes) (content : bytes) :
  opens w argv content ->
  well_formed false (fgets_lines content) = true ->
  (exit_code (main w argv) = 0%Z /\ messages (main w argv) = [])
  \/ (exit_code (main w argv) = (-1)%Z /\ messages (main w argv) = frame_msg).
Proof.
  intros O W. rewrite (main_opens w argv content O). unfold convert.
  set (lines := fgets_lines content) in *.
  destruct (before_scan_facts w lines []) as (B1 & _ & _ & _ & B5 & _).
  pose proof (scan_well_formed_code _ (before_scan w lines []) (Nat.le_refl _)) as C.
  pose proof (scan_ends _ (before_scan w lines []) (Nat.le_refl _)) as E.
  rewrite B1 in C. specialize (C W).
  destruct (scan (before_scan w lines [])) as [s'|code s'].
  - left. cbn [exit_code messages].
    destruct (finish_header lines s') as [-> _]. rewrite E, B5. auto.
  - right. subst code. cbn [exit_code messages].
    destruct E as [[_ E]|[E _]]; [|discriminate].
    rewrite E, B5. auto.
Qed.


End Truncation.

(** ** The output file *)

Section Output.
Context {P : Platform}.

(** During the loop the output file only grows at its end. *)
Definition extends (f f' : stream) : Prop :=
  at_end f' /\ exists t, data f' = data f ++ t.

Lemma extends_refl (f : stream) : at_end f -> extends f f.
Proof. intros A. split; [exact A|]. exists []. now rewrite app_nil_r. Qed.

Lemma extends_fwrite (f f' : stream) (t : bytes) :
  extends f f' -> extends f (fwrite t f').
Proof.
  intros [A [u E]]. destruct (fwrite_at_end t f' A) as [D A'].
  split; [exact A'|]. exists (u ++ t). rewrite D, E, app_assoc. reflexivity.
Qed.

Lemma extends_trans (f1 f2 f3 : stream) :
  extends f1 f2 -> extends f2 f3 -> extends f1 f3.
Proof.
  intros [_ [u E]] [A [v E']]. split; [exact A|].
  exists (u ++ v). rewrite E', E, app_assoc. reflexivity.
Qed.

Lemma extends_descriptive_line (s : state) :
  at_end (ofile s) -> extends (ofile s) (with_descriptive_line s).
Proof.
  intros A. unfold with_descriptive_line. destruct (n_written s =? 0)%N.
  - apply extends_fwrite, extends_refl, A.
  - apply extends_refl, A.
Qed.

Lemma turn_extends (s : state) :
  at_end (ofile s) ->
  match loop_body s with
  | Next s' | Leave s' | Return _ s' => extends (ofile s) (ofile s')
  end.
Proof.
  intros A. pose proof (turn_cases s) as C.
  pose proof (extends_descriptive_line s A) as D.
  destruct (loop_body s) as [s'|s'|code s'].
  - destruct C as [(line & _ & _ & ->)
                  |[(ts & pos & _ & _ & _ & _ & _ & ->)
                   |(ts & pos & vel & _ & _ & _ & _ & _ & ->)]].
    + match goal with |- context [detect ?t] =>
        destruct (detect_keeps t) as (_ & _ & _ & _ & -> & _) end.
      fields. apply extends_refl, A.
    + apply extends_fwrite, extends_fwrite, D.
    + apply extends_fwrite, extends_fwrite, D.
  - destruct C as [_ ->]. apply extends_refl, A.
  - destruct C as (ts & rest & _ & _ & [(_ & _ & ->)|(_ & _ & C)]).
    + apply extends_refl, A.
    + destruct C as [[_ ->]|(_ & pos & _ & ->)].
      * exact D.
      * apply extends_fwrite, D.
Qed.

Lemma scan_extends (k : nat) (s : state) :
  length (ifile s) <= k ->
  at_end (ofile s) ->
  match scan s with
  | Finished s' | Aborted _ s' => extends (ofile s) (ofile s')
  end.
Proof.
  revert s. induction k as [|k IH]; intros s L A;
    rewrite scan_step; pose proof (turn_extends s A) as E;
    destruct (loop_body s) as [s1|s1|code s1] eqn:B; try exact E.
  - apply loop_body_consumes in B. lia.
  - apply loop_body_consumes in B. destruct E as [A1 E].
    specialize (IH s1 ltac:(lia) A1).
    destruct (scan s1) as [s'|code s'];
      (eapply extends_trans; [split; [exact A1|exact E]|exact IH]).
Qed.

(** X9.  A run that does not succeed leaves the provisional header in
    place: whatever the loop had written when it stopped, the output
    still starts with the header printed from zeros and the suffix, and
    nothing of it has been overwritten. *)
Theorem failed_run_keeps_provisional_header
    (w : world) (argv : list bytes) (content : bytes) :
  opens w argv content ->
  exit_code (main w argv) <> 0%Z ->
  exists body,
    output (main w argv) = header_fmt 0 0 0 ++ header_suffix ++ body.
Proof.
  intros O. rewrite (main_opens w argv content O). unfold convert.
  set (lines := fgets_lines content).
  destruct (before_scan_facts w lines []) as (_ & _ & _ & _ & _ & B6 & B7).
  pose proof (scan_extends _ (before_scan w lines []) (Nat.le_refl _) B7) as E.
  destruct (scan (before_scan w lines [])) as [s'|code s'].
  - cbn [exit_code]. intros H. contradiction H. reflexivity.
  - intros _. cbn [output]. destruct E as [_ [body E]].
    exists body. rewrite E, B6, <- app_assoc. reflexivity.
Qed.

(** X10.  A run that succeeds writes, in this order, the provisional
    header, the suffix, what the samples give, the trailer and the lines
    of the input before the first ["$$SOE"] line; the final header is
    then written over the start of this text and changes nothing
    beyond its own length. *)
Theorem successful_run_layout
    (w : world) (argv : list bytes) (content : bytes) :
  opens w argv content ->
  exit_code (main w argv) = 0%Z ->
  exists jd step n body,
    let h := header_fmt jd step n in
    output (main w argv)
    = h ++ skipn (length h)
             (header_fmt 0 0 0 ++ header_suffix ++ body ++ trailer
              ++ preamble (fgets_lines content)).
Proof.
  intros O. rewrite (main_opens w argv content O). unfold convert.
  set (lines := fgets_lines content).
  destruct (before_scan_facts w lines []) as (_ & _ & _ & _ & _ & B6 & B7).
  pose proof (scan_extends _ (before_scan w lines []) (Nat.le_refl _) B7) as E.
  pose proof (scan_ends _ (before_scan w lines []) (Nat.le_refl _)) as C.
  destruct (scan (before_scan w lines [])) as [s'|code s'].
  - intros _. cbv zeta. cbn [output]. destruct E as [A [body E]].
    exists (jd0 s'), (step_size s'), (n_written s'), body.
    rewrite (finish_at_end lines s' A), E, B6, <- !app_assoc. reflexivity.
  - cbn [exit_code]. intros ->. destruct C as [[C _]|[C _]]; discriminate.
Qed.



End Output.

(** ** The lines of the input and the buffer *)

Section Lines.
Context {P : Platform}.

Lemma fgets_pieces_concat (s : bytes) (room : nat) (cur : bytes) :
  concat (fgets_pieces room cur s) = rev cur ++ s.
Proof.
  revert room cur. induction s as [|c s IH]; intros room cur.
  - destruct cur; cbn [fgets_pieces concat]; now rewrite ?app_nil_r.
  - assert (E : concat (rev (c :: cur) :: fgets_pieces 199 [] s)
                = rev cur ++ c :: s).
    { cbn [concat rev]. rewrite IH. cbn [rev app].
      rewrite <- app_assoc. reflexivity. }
    cbn [fgets_pieces]. destruct (Ascii.eqb c LF); [exact E|].
    destruct room as [|[|room]]; try exact E.
    rewrite IH. cbn [rev]. rewrite <- app_assoc. reflexivity.
Qed.

Lemma fgets_pieces_fit (s : bytes) (room : nat) (cur : bytes) :
  1 <= room -> length cur + room <= 199 ->
  Forall (fun l => 1 <= length l <= 199) (fgets_pieces room cur s).
Proof.
  revert room cur. induction s as [|c s IH]; intros room cur R B.
  - destruct cur as [|a cur]; cbn [fgets_pieces]; constructor; [|constructor].
    rewrite length_rev. cbn [length] in *. lia.
  - assert (E : Forall (fun l => 1 <= length l <= 199)
                  (rev (c :: cur) :: fgets_pieces 199 [] s)).
    { constructor; [|apply IH; cbn [length]; lia].
      rewrite length_rev. cbn [length]. lia. }
    cbn [fgets_pieces]. destruct (Ascii.eqb c LF); [exact E|].
    destruct room as [|[|room]]; try exact E.
    apply IH; cbn [length]; lia.
Qed.

Lemma c_str_no_nul (l : bytes) : ~ In NUL l -> c_str l = l.
Proof.
  induction l as [|c l IH]; intros N; [reflexivity|].
  cbn [c_str]. destruct (Ascii.eqb_spec c NUL) as [->|_].
  - exfalso. apply N. now left.
  - rewrite IH; [reflexivity|]. intros H. apply N. now right.
Qed.

Lemma preamble_split (lines : list bytes) :
  Forall (fun l => ~ In NUL l) lines ->
  exists before after,
    lines = before ++ after
    /\ Forall (fun l => memcmp_eq l "$$SOE" 5 = false) before
    /\ match after with
       | [] => True
       | l :: _ => memcmp_eq l "$$SOE" 5 = true
       end
    /\ preamble lines = concat before.
Proof.
  induction 1 as [|line lines N _ (before & after & E & B & A & C)].
  - exists [], []. repeat split. constructor.
  - cbn [preamble]. destruct (memcmp_eq line "$$SOE" 5) eqn:M.
    + exists [], (line :: lines). repeat split; [constructor|exact M].
    + exists (line :: before), after. rewrite E at 1.
      repeat split; [constructor; assumption|exact A|].
      cbn [concat]. rewrite (c_str_no_nul line N), C. reflexivity.
Qed.

(** X13.  The final loop writes the input back as it is, up to the first
    line that starts with ["$$SOE"]: for an input without NUL bytes, the
    lines that [fgets] delivers fall into those before the first that
    starts with ["$$SOE"] and the rest; what the loop appends to the
    output is the former, byte for byte, and nothing of the latter. *)
Theorem preamble_copied_verbatim (content : bytes) (s : state) :
  ~ In NUL content ->
  at_end (ofile s) ->
  exists before after,
    fgets_lines content = before ++ after
    /\ Forall (fun l => memcmp_eq l "$$SOE" 5 = false) before
    /\ match after with
       | [] => True
       | l :: _ => memcmp_eq l "$$SOE" 5 = true
       end
    /\ data (ofile (copy_preamble (fgets_lines content) s))
       = data (ofile s) ++ concat before
    /\ content = concat before ++ concat after.
Proof.
  intros N A.
  pose proof (fgets_pieces_concat content 199 []) as C. cbn [rev app] in C.
  fold (fgets_lines content) in C.
  assert (F : Forall (fun l => ~ In NUL l) (fgets_lines content)).
  { apply Forall_forall. intros l H I. apply N. rewrite <- C.
    apply in_concat. exists l. auto. }
  destruct (preamble_split _ F) as (before & after & E & B & Af & Pr).
  destruct (copy_preamble_facts (fgets_lines content) s A) as (D & _).
  exists before, after.
  split; [exact E|]. split; [exact B|]. split; [exact Af|].
  split; [rewrite <- Pr; exact D|].
  rewrite <- C at 1. rewrite E. apply concat_app.
Qed.

Lemma length_store_line (line b : bytes) :
  length line < length b -> length (store_line line b) = length b.
Proof.
  intros H. unfold store_line.
  rewrite length_app. cbn [length]. rewrite length_skipn. lia.
Qed.

(** The buffer has its 200 bytes and every line still to come fits. *)
Definition buffer_fits (s : state) : Prop :=
  length (buff s) = 200 /\ Forall (fun l => 1 <= length l <= 199) (ifile s).

Lemma turn_buffer_fits (s s' : state) :
  loop_body s = Next s' -> buffer_fits s -> buffer_fits s'.
Proof.
  intros B [L F]. pose proof (turn_cases s) as C. rewrite B in C.
  unfold buffer_fits.
  destruct C as [(line & I & _ & E)
                |[(ts & pos & I & _ & _ & _ & D & _)
                 |(ts & pos & vel & I & _ & _ & _ & D & _)]];
    rewrite I in F.
  - inversion F as [|? ? F1 F2]; subst. split; [|exact F2].
    rewrite E.
    match goal with |- context [detect ?t] =>
      destruct (detect_keeps t) as (_ & -> & _) end.
    fields. rewrite length_store_line; lia.
  - inversion F as [|? ? F1 F2]; subst.
    inversion F2 as [|? ? F3 F4]; subst. split; [|exact F4].
    destruct D as (-> & _).
    rewrite !length_store_line; rewrite ?length_store_line; lia.
  - inversion F as [|? ? F1 F2]; subst.
    inversion F2 as [|? ? F3 F4]; subst.
    inversion F4 as [|? ? F5 F6]; subst. split; [|exact F6].
    destruct D as (-> & _).
    rewrite !length_store_line; rewrite ?length_store_line;
      rewrite ?length_store_line; lia.
Qed.

(** X14.  [fgets] is given the size of [buff], so no line overruns it:
    if the buffer starts with 200 bytes, it has 200 bytes whenever the
    loop is at its condition, each line having been stored with its
    terminator inside them. *)
Theorem buffer_keeps_size (w : world) (content con : bytes) (s : state) :
  length (buff_garbage w) = 200 ->
  reaches (before_scan w (fgets_lines content) con) s ->
  length (buff s) = 200
  /\ Forall (fun l => 1 <= length l <= 199) (ifile s).
Proof.
  intros G R.
  assert (B0 : buffer_fits (before_scan w (fgets_lines content) con)).
  { split; [exact G|]. apply fgets_pieces_fit; cbn [length]; lia. }
  induction R as [|a b c H _ IH]; [exact B0|].
  apply IH. exact (turn_buffer_fits a b H B0).
Qed.

(** X15.  A coordinate line that is too short does not give zeros: the
    offsets it does not reach are read from the line that was in the
    buffer before it.  For an unlabelled position line of 3 to 23 bytes
    after a timestamp line, y and z are what [atof] reads at offsets 24
    and 47 of the timestamp line. *)
Theorem short_position_line_reads_timestamp (ts pos old : bytes) :
  3 <= length pos -> length pos < 24 ->
  47 <= length ts ->
  labelled pos = false ->
  raw_coords (store_line pos (store_line ts old))
  = (atof (str_at pos 1), atof (str_at ts 24), atof (str_at ts 47)).
Proof.
  intros L3 L24 Lt U. unfold raw_coords. rewrite get_coords_raw.
  assert (U' : labelled (store_line pos (store_line ts old)) = false).
  { unfold labelled in *. rewrite !idx_store_line by lia. exact U. }
  rewrite U'. unfold parse_at.
  rewrite (str_at_store_line pos _ 1) by lia.
  rewrite (str_at_beyond_line pos _ 24), (str_at_beyond_line pos _ 47) by lia.
  rewrite !str_at_store_line by lia. reflexivity.
Qed.

End Lines.

(* ------------------------------------------------------------------ *)
(** ** The layout of a coordinate line *)

Section Layout.
Context {P : Platform}.

(** The layout test reads the bytes at indices 1 and 2 of the buffer.
    For a line of two bytes or more they are bytes of the line, or its
    terminator: the line chooses its layout by itself. *)
Lemma labelled_store_line (L old : bytes) :
  2 <= length L -> labelled (store_line L old) = labelled L.
Proof.
  intros H. unfold labelled. rewrite idx_store_line by lia.
  change (nth 1 L NUL) with (idx L 1). f_equal.
  destruct (Nat.eq_dec (length L) 2) as [E|E].
  - unfold idx, store_line. rewrite app_nth2 by lia. rewrite E. cbn [Nat.sub nth].
    rewrite nth_overflow by lia. reflexivity.
  - rewrite idx_store_line by lia. reflexivity.
Qed.

Lemma idx_nth_error (L : bytes) (i : nat) (c : ascii) :
  c <> NUL -> (idx L i = c <-> nth_error L i = Some c).
Proof.
  intros N. unfold idx. split.
  - intros E. destruct (nth_error L i) as [a|] eqn:G.
    + rewrite (nth_error_nth L i NUL G) in E. congruence.
    + apply nth_error_None in G. rewrite nth_overflow in E by lia. congruence.
  - intros G. apply (nth_error_nth L i NUL G).
Qed.

Lemma get_coords_layout (b : bytes) (ecl : bool) :
  get_coords_from_buff b ecl
  = to_equatorial ecl (if labelled b then parse_at b 4 30 56 else parse_at b 1 24 47).
Proof. rewrite get_coords_rotate. unfold raw_coords. now rewrite get_coords_raw. Qed.

Lemma parse_at_store_line (L old : bytes) (x y z : nat) :
  x <= length L -> y <= length L -> z <= length L ->
  parse_at (store_line L old) x y z = parse_at L x y z.
Proof.
  intros Hx Hy Hz. unfold parse_at. now rewrite !str_at_store_line by assumption.
Qed.

(** C6, for lines of two bytes or more.  [get_coords_from_buff] reads
    its three numbers at offsets 4, 30 and 56 exactly when the byte at
    index 1 or at index 2 of the buffer is ['X'], and at offsets 1, 24 and
    47 otherwise, and rotates them when the input is ecliptic.  For a line
    [L] of at least two bytes the two bytes tested are those of [L] (or
    its terminator), whatever line was in the buffer before: [L] chooses
    its layout by itself, and a number at an offset that [L] reaches is
    read from [L].  For a line of one byte the byte tested at index 2 is
    the one the line before left there.  A labelled line and an
    unlabelled line that
    carry the same three numbers at their respective offsets give the same
    coordinates, whatever the lines before them were. *)
Theorem coordinate_layout (b b' L U old old' : bytes) (ecl : bool) :
  ((labelled b = true <-> idx b 1 = "X"%char \/ idx b 2 = "X"%char)
   /\ get_coords_from_buff b ecl
      = to_equatorial ecl
          (if labelled b then parse_at b 4 30 56 else parse_at b 1 24 47)
   /\ (labelled b = true -> labelled b' = false ->
       parse_at b 4 30 56 = parse_at b' 1 24 47 ->
       get_coords_from_buff b ecl = get_coords_from_buff b' ecl))
  /\ (2 <= length L ->
      (labelled (store_line L old) = true
       <-> nth_error L 1 = Some "X"%char \/ nth_error L 2 = Some "X"%char)
      /\ labelled (store_line L old) = labelled (store_line L old')
      /\ (forall off, off <= length L ->
          str_at (store_line L old) off = str_at L off))
  /\ (length L = 1 ->
      labelled (store_line L old) = Ascii.eqb (idx old 2) "X")
  /\ ((if labelled L then 56 else 47) <= length L ->
      get_coords_from_buff (store_line L old) ecl
      = to_equatorial ecl
          (if labelled L then parse_at L 4 30 56 else parse_at L 1 24 47))
  /\ (labelled L = true -> labelled U = false ->
      56 <= length L -> 47 <= length U ->
      parse_at L 4 30 56 = parse_at U 1 24 47 ->
      get_coords_from_buff (store_line L old) ecl
      = get_coords_from_buff (store_line U old') ecl).
Proof.
  assert (X : "X"%char <> NUL) by discriminate.
  assert (Own : (if labelled L then 56 else 47) <= length L ->
                get_coords_from_buff (store_line L old) ecl
                = to_equatorial ecl
                    (if labelled L then parse_at L 4 30 56 else parse_at L 1 24 47)).
  { intros H. assert (H2 : 2 <= length L) by (destruct (labelled L); lia).
    rewrite get_coords_layout, (labelled_store_line L old H2).
    destruct (labelled L); rewrite parse_at_store_line by lia; reflexivity. }
  split; [split; [|split]|split; [|split; [|split]]].
  - unfold labelled. rewrite orb_true_iff, !Ascii.eqb_eq. reflexivity.
  - apply get_coords_layout.
  - intros Hb Hb' E. rewrite !get_coords_layout, Hb, Hb', E. reflexivity.
  - intros H. split; [|split].
    + rewrite (labelled_store_line L old H). unfold labelled.
      rewrite orb_true_iff, !Ascii.eqb_eq, !(idx_nth_error L _ _ X). reflexivity.
    + rewrite !labelled_store_line by exact H. reflexivity.
    + intros off Ho. apply str_at_store_line. exact Ho.
  - intros H. destruct L as [|c [|c' L]]; try discriminate.
    unfold labelled, idx, store_line. cbn [app length nth Ascii.eqb orb].
    destruct old as [|o0 [|o1 old]]; reflexivity.
  - exact Own.
  - intros HL HU LL LU E.
    rewrite Own by (rewrite HL; exact LL). rewrite HL, E.
    rewrite get_coords_layout, (labelled_store_line U old') by lia.
    rewrite HU, parse_at_store_line by lia. reflexivity.
Qed.

End Layout.

(* ------------------------------------------------------------------ *)
(** ** Which lines are taken as timestamp lines *)

Section LineRoles.
Context {P : Platform}.

(** The conditions of the first [if] of the scanning loop, on the text of
    a line. *)
Definition five_conditions (text : bytes) : Prop :=
  ((2000000 <? atof text)%float = true /\ (atof text <? 3000000)%float = true)
  /\ 54 < length text
  /\ firstn 7 (skipn 17 text) = " = A.D."
  /\ (nth_error text 42 = Some ":"%char /\ nth_error text 45 = Some "."%char)
  /\ firstn 4 (skipn 50 text) = " TDB".

Lemma is_timestamp_line_conditions (line : bytes) :
  is_timestamp_line line = true <-> five_conditions (c_str line).
Proof.
  unfold five_conditions.
  rewrite is_timestamp_line_eq.
  rewrite !andb_true_iff, Nat.ltb_lt, !bytes_eqb_eq, !Ascii.eqb_eq.
  unfold strlen. split.
  - intros [[[[[[H1 H2] H3] H4] H5] H6] H7].
    rewrite <- !window_c_str by (unfold strlen; lia).
    rewrite !idx_c_str by (unfold strlen; lia). rewrite H5, H6. intuition congruence.
  - intros [[H1 H2] [H3 [H4 [[H5 H6] H7]]]].
    rewrite <- window_c_str in H4, H7 by (unfold strlen; lia).
    rewrite idx_c_str in H5, H6 by (unfold strlen; lia).
    injection H5 as H5. injection H6 as H6. intuition congruence.
Qed.

(** The block of the first [if], entered with the line [ts] read. *)
Definition sample_turn (s : state) (ts : bytes) (rest : list bytes) : flow :=
  if Bool.eqb (is_equatorial s) (is_ecliptical s)
  then Return (-1) (printf frame_msg (set_ifile rest (set_buff (store_line ts (buff s)) s)))
  else
    let s2 := after_timestamp s ts rest in
    match fgets s2 with
    | None => Return (-2) (printf truncated_msg s2)
    | Some s3 =>
        let coords :=
          position_units (in_km_s s3)
            (to_equatorial (is_ecliptical s3) (raw_coords (buff s3))) in
        let s4 := fprintf (position_record (atof (c_str ts)) coords) s3 in
        if negb (state_vectors s4) then
          Next (set_n_written (wrap_unsigned (n_written s4 + 1)) (fprintf [LF] s4))
        else
          match fgets s4 with
          | None => Return (-2) (printf truncated_msg s4)
          | Some s5 =>
              let coords :=
                velocity_units (in_km_s s5)
                  (to_equatorial (is_ecliptical s5) (raw_coords (buff s5))) in
              let s6 := fprintf (velocity_record coords) s5 in
              Next (set_n_written (wrap_unsigned (n_written s6 + 1)) s6)
          end
    end.

(** The chain of [else if], entered with the line read. *)
Definition header_turn (s : state) (line : bytes) (rest : list bytes) : flow :=
  Next (detect (set_ifile rest (set_buff (store_line line (buff s)) s))).

Lemma after_timestamp_ifile (s : state) (ts : bytes) (rest : list bytes) :
  ifile (after_timestamp s ts rest) = rest.
Proof.
  unfold after_timestamp. cbv zeta.
  destruct (_ =? 0)%N; [|destruct (_ =? 1)%N; reflexivity].
  match goal with |- context [match ?n with [] => _ | _ :: _ => _ end] =>
    destruct n end; reflexivity.
Qed.

(** The two blocks never end a turn in the same way: a sample takes at
    least two lines or leaves the loop. *)
Lemma sample_turn_not_header (s : state) (ts : bytes) (rest : list bytes) :
  sample_turn s ts rest <> header_turn s ts rest.
Proof.
  unfold sample_turn, header_turn.
  match goal with |- context [detect ?t] =>
    destruct (detect_keeps t) as (D & _); generalize dependent (detect t) end.
  intros d D. fields.
  destruct (Bool.eqb _ _); [discriminate|]. cbv zeta.
  destruct (fgets (after_timestamp s ts rest)) as [s3|] eqn:F3; [|discriminate].
  apply fgets_ifile in F3. rewrite after_timestamp_ifile in F3.
  destruct (negb _).
  - intros [= E]. apply (f_equal (fun t => length (ifile t))) in E.
    fields. rewrite D, F3 in E. lia.
  - match goal with |- context [fgets ?t] =>
      destruct (fgets t) as [s5|] eqn:F5; [|discriminate] end.
    apply fgets_ifile in F5. fields.
    intros [= E]. apply (f_equal (fun t => length (ifile t))) in E.
    fields. rewrite D, F3, F5 in E. lia.
Qed.

(** The lines that the loop condition reads in at most [k] turns from
    [s]; the lines a sample takes as its coordinate lines are not among
    them. *)
Fixpoint heads (k : nat) (s : state) : list bytes :=
  match k with
  | 0 => []
  | S k =>
      match ifile s with
      | [] => []
      | line :: _ =>
          line :: match loop_body s with
                  | Next s' => heads k s'
                  | _ => []
                  end
      end
  end.

Lemma heads_reached (k : nat) (s : state) (line : bytes) :
  In line (heads k s) ->
  exists t rest, reaches s t /\ ifile t = line :: rest.
Proof.
  revert s. induction k as [|k IH]; intros s H; [contradiction|].
  cbn [heads] in H. destruct (ifile s) as [|l rest] eqn:I; [contradiction|].
  destruct H as [<-|H].
  - exists s, rest. split; [apply reaches_here|exact I].
  - destruct (loop_body s) as [s'| |] eqn:B; try contradiction.
    destruct (IH s' H) as (t & rest' & R & I').
    exists t, rest'. split; [exact (reaches_next s s' t B R)|exact I'].
Qed.

(** [main] from the loop condition on, in the state [s]. *)
Definition run_from (lines : list bytes) (s : state) : result :=
  match scan s with
  | Aborted code s =>
      {| exit_code := code; messages := console s; output := data (ofile s) |}
  | Finished s =>
      let s := finish lines s in
      {| exit_code := 0; messages := console s; output := data (ofile s) |}
  end.

(** What a turn of the loop leads to. *)
Definition run_after (lines : list bytes) (f : flow) : result :=
  match f with
  | Next s => run_from lines s
  | Leave s =>
      let s := finish lines s in
      {| exit_code := 0; messages := console s; output := data (ofile s) |}
  | Return code s =>
      {| exit_code := code; messages := console s; output := data (ofile s) |}
  end.

Lemma run_from_turn (lines : list bytes) (s : state) :
  run_from lines s = run_after lines (loop_body s).
Proof.
  unfold run_from at 1. rewrite scan_step.
  destruct (loop_body s); reflexivity.
Qed.

Lemma main_run_from
    (w : world) (argv : list bytes) (content : bytes) (s : state) :
  opens w argv content ->
  reaches (before_scan w (fgets_lines content) []) s ->
  main w argv = run_from (fgets_lines content) s.
Proof.
  intros O R. rewrite (main_opens w argv content O).
  unfold convert, run_from. rewrite (scan_reaches _ _ R). reflexivity.
Qed.

(** C2, for the lines the loop condition reads.  Let the loop be at its
    condition with [line] as the next line of the input.  The turn runs
    the block of a sample on [line] exactly when the five conditions hold
    of the text of [line]: its leading number, as [atof] reads it, lies
    strictly between 2000000 and 3000000; it is longer than 54
    characters; the 7 characters at offset 17 are [" = A.D."]; the
    characters at offsets 42 and 45 are [':'] and ['.']; the 4 characters
    at offset 50 are [" TDB"].  Exactly when they do not hold, the turn
    runs the chain of header tests on [line].  In a run of [main] that
    comes to this state the result is what the block chosen leads to. *)
Theorem timestamp_line_iff (s : state) (line : bytes) (rest : list bytes) :
  ifile s = line :: rest ->
  (five_conditions (c_str line) <-> loop_body s = sample_turn s line rest)
  /\ (~ five_conditions (c_str line) <-> loop_body s = header_turn s line rest)
  /\ (forall w argv content,
        opens w argv content ->
        reaches (before_scan w (fgets_lines content) []) s ->
        (five_conditions (c_str line) ->
         main w argv = run_after (fgets_lines content) (sample_turn s line rest))
        /\ (~ five_conditions (c_str line) ->
            main w argv = run_after (fgets_lines content) (header_turn s line rest))).
Proof.
  intros I.
  assert (A : five_conditions (c_str line) -> loop_body s = sample_turn s line rest).
  { intros F. apply is_timestamp_line_conditions in F.
    exact (loop_body_timestamp s line rest I F). }
  assert (B : ~ five_conditions (c_str line) -> loop_body s = header_turn s line rest).
  { intros F. apply (loop_body_other s line rest I).
    destruct (is_timestamp_line line) eqn:T; [|reflexivity].
    contradiction F. apply is_timestamp_line_conditions. exact T. }
  assert (D : five_conditions (c_str line) \/ ~ five_conditions (c_str line)).
  { destruct (is_timestamp_line line) eqn:T.
    - left. apply is_timestamp_line_conditions. exact T.
    - right. intros F. apply is_timestamp_line_conditions in F. congruence. }
  pose proof (sample_turn_not_header s line rest) as N.
  split; [|split].
  - split; [exact A|]. intros E. destruct D as [D|D]; [exact D|].
    rewrite (B D) in E. congruence.
  - split; [exact B|]. intros E F. rewrite (A F) in E. congruence.
  - intros w argv content O R.
    rewrite (main_run_from w argv content s O R), run_from_turn.
    split; intros F; [rewrite (A F)|rewrite (B F)]; reflexivity.
Qed.

End LineRoles.

(* ------------------------------------------------------------------ *)
(** ** The step size *)

Section StepSize.
Context {P : Platform}.

(** The timestamp lines of the samples the loop reads, [sv] telling
    whether velocities are expected: a line that passes the timestamp
    test when the loop condition reads it, the one or two lines after
    it being taken as its coordinate lines whatever they are. *)
Fixpoint samples (sv : bool) (lines : list bytes) : list bytes :=
  match lines with
  | [] => []
  | line :: rest =>
      if is_timestamp_line line then
        line :: match rest with
                | _ :: rest1 =>
                    if sv then
                      match rest1 with
                      | _ :: rest2 => samples sv rest2
                      | [] => []
                      end
                    else samples sv rest1
                | [] => []
                end
      else samples (sv || is_vx_marker line) rest
  end.

Lemma scan_samples (k : nat) (s s' : state) :
  length (ifile s) <= k ->
  scan s = Finished s' ->
  (n_written s', epoch_of s')
  = epoch_after (n_written s) (epoch_of s) (samples (state_vectors s) (ifile s)).
Proof.
  revert s. induction k as [|k IH]; intros s L Sc;
    rewrite scan_step in Sc; pose proof (turn_cases s) as C;
    destruct (loop_body s) as [s1|s1|code s1] eqn:B; try discriminate.
  - apply loop_body_consumes in B. lia.
  - injection Sc as <-. destruct C as [-> ->]. reflexivity.
  - apply loop_body_consumes in B as B'.
    rewrite (IH s1 ltac:(lia) Sc).
    destruct C as [(line & I & T & E)
                  |[(ts & pos & I & T & _ & V & D & _)
                   |(ts & pos & vel & I & T & _ & V & D & _)]];
      rewrite I; cbn [samples]; rewrite T.
    + rewrite E.
      match goal with |- context [detect ?t] =>
        destruct (detect_keeps t) as (D1 & _ & D3 & D4 & _);
        pose proof (detect_state_vectors t) as D7 end.
      rewrite D1, D3, D4, D7. fields.
      rewrite (memcmp_store_line line (buff s) _ 17) by reflexivity.
      reflexivity.
    + destruct D as (_ & N1 & E1 & F1 & _). unfold flags_of in F1.
      injection F1 as V1 _ _ _. rewrite V1, V, N1, E1. reflexivity.
    + destruct D as (_ & N1 & E1 & F1 & _). unfold flags_of in F1.
      injection F1 as V1 _ _ _. rewrite V1, V, N1, E1. reflexivity.
  - injection Sc as <-. destruct C as [-> ->]. reflexivity.
Qed.

(** On a well-formed input the samples are the lines that pass the
    timestamp test. *)
Lemma samples_well_formed (sv : bool) (lines : list bytes) :
  well_formed sv lines = true ->
  samples sv lines = filter is_timestamp_line lines.
Proof.
  revert sv. induction lines as [lines IH] using
    (well_founded_induction (Wf_nat.well_founded_ltof _ (@length bytes))).
  intros sv W. destruct lines as [|line rest]; [reflexivity|].
  cbn [well_formed samples filter] in *.
  destruct (is_timestamp_line line); [|apply IH; [unfold Wf_nat.ltof; cbn; lia|exact W]].
  destruct rest as [|pos rest1]; [discriminate|].
  apply andb_true_iff in W. destruct W as [Tp W]. apply negb_true_iff in Tp.
  cbn [filter]. rewrite Tp. f_equal.
  destruct sv.
  - destruct rest1 as [|vel rest2]; [discriminate|].
    apply andb_true_iff in W. destruct W as [Tv W]. apply negb_true_iff in Tv.
    cbn [filter]. rewrite Tv.
    apply IH; [unfold Wf_nat.ltof; cbn; lia|exact W].
  - apply IH; [unfold Wf_nat.ltof; cbn; lia|exact W].
Qed.

(** What one turn does to the step size. *)
Lemma turn_step_size (s s' : state) (ts : bytes) (rest : list bytes) :
  ifile s = ts :: rest ->
  loop_body s = Next s' ->
  step_size s' =
  if is_timestamp_line ts && (n_written s =? 1)%N
  then (atof (str_at ts 7) - frac_jd0 s
        + double_of_int (wrap_int (atoi (c_str ts) - int_jd0 s)))%float
  else step_size s.
Proof.
  intros I B. pose proof (turn_cases s) as C. rewrite B in C.
  assert (Sm : forall ts', ts' = ts -> is_timestamp_line ts' = true ->
               epoch_of s' = sample_epoch (n_written s) ts' (epoch_of s) ->
               step_size s' =
               if is_timestamp_line ts && (n_written s =? 1)%N
               then (atof (str_at ts 7) - frac_jd0 s
                     + double_of_int (wrap_int (atoi (c_str ts) - int_jd0 s)))%float
               else step_size s).
  { intros ts' -> T E. rewrite T. cbn [andb].
    unfold epoch_of, sample_epoch in E.
    destruct (n_written s =? 0)%N eqn:Z.
    - apply N.eqb_eq in Z. rewrite Z. cbn [N.eqb]. congruence.
    - destruct (n_written s =? 1)%N; congruence. }
  destruct C as [(line & I' & T & E)
                |[(ts' & pos & I' & T & _ & _ & D & _)
                 |(ts' & pos & vel & I' & T & _ & _ & D & _)]];
    rewrite I in I'.
  - injection I' as <- _. rewrite T. cbn [andb]. rewrite E.
    match goal with |- context [detect ?t] =>
      destruct (detect_keeps t) as (_ & _ & _ & D4 & _) end.
    unfold epoch_of in D4. fields. congruence.
  - injection I' as <- _. destruct D as (_ & _ & E1 & _). now apply (Sm ts).
  - injection I' as <- _. destruct D as (_ & _ & E1 & _). now apply (Sm ts).
Qed.

(** C3, as the program computes it.  In a run that returns 0 after fewer
    than 2^32 samples, the step size printed in the header is
    (fractional-day difference) + (integer-day difference) of the
    timestamp lines of the second and the first sample read, the
    fractional day of a line being what [atof] reads at its offset 7 and
    the integer day what [atoi] reads at its start; it is 0 when there is
    no second sample, and depends on no sample after the second.  In the
    loop the step size is assigned in one place only: a turn changes it
    exactly when it reads a timestamp line with one sample written. *)
Theorem step_size_from_first_two
    (w : world) (argv : list bytes) (content : bytes) :
  opens w argv content ->
  let S := samples false (fgets_lines content) in
  exit_code (main w argv) = 0%Z ->
  (N.of_nat (length S) < 2 ^ 32)%N ->
  (exists rest,
     output (main w argv)
     = header_fmt (jd_of S) (step_of S) (N.of_nat (length S)) ++ rest)
  /\ (forall s s' ts rest,
        ifile s = ts :: rest ->
        loop_body s = Next s' ->
        step_size s' =
        if is_timestamp_line ts && (n_written s =? 1)%N
        then (atof (str_at ts 7) - frac_jd0 s
              + double_of_int (wrap_int (atoi (c_str ts) - int_jd0 s)))%float
        else step_size s).
Proof.
  intros O S. rewrite (main_opens w argv content O). unfold convert.
  set (lines := fgets_lines content) in *.
  destruct (before_scan_facts w lines []) as (B1 & B2 & B3 & B4 & _).
  destruct (scan (before_scan w lines [])) as [s'|code s'] eqn:Sc.
  2:{ cbn [exit_code]. intros ->.
      pose proof (scan_ends _ (before_scan w lines []) (Nat.le_refl _)) as E.
      rewrite Sc in E. destruct E as [[E _]|[E _]]; discriminate. }
  intros _ B. split.
  - cbv zeta. cbn [output].
    assert (V : state_vectors (before_scan w lines []) = false) by reflexivity.
    pose proof (scan_samples _ (before_scan w lines []) s' (Nat.le_refl _) Sc) as C.
    rewrite V, B1, B2, B3 in C. fold S in C.
    destruct (epoch_after_start S B) as (f & i & A). rewrite A in C.
    unfold epoch_of in C. injection C as N1 J1 S1 _ _.
    destruct (finish_header lines s') as [_ ->].
    rewrite N1, J1, S1. eexists. reflexivity.
  - intros s s1 ts rest I Bd. exact (turn_step_size s s1 ts rest I Bd).
Qed.

End StepSize.

(* ------------------------------------------------------------------ *)
(** ** The three kinds of error *)

Section Errors.
Context {P : Platform}.

(** The loop is at a line that passes the timestamp test with the frame
    unresolved. *)
Definition frame_unresolved (s : state) : Prop :=
  exists ts rest,
    ifile s = ts :: rest /\ is_timestamp_line ts = true
    /\ is_equatorial s = is_ecliptical s.

(** The loop is at a line that passes the timestamp test, with the frame
    resolved, and the file ends before the coordinate lines of the sample
    have been read. *)
Definition sample_cut_short (s : state) : Prop :=
  exists ts rest,
    ifile s = ts :: rest /\ is_timestamp_line ts = true
    /\ is_equatorial s <> is_ecliptical s
    /\ (rest = [] \/ (state_vectors s = true /\ length rest = 1)).

Lemma turn_frame_unresolved (s : state) :
  frame_unresolved s ->
  loop_body s = Return (-1) (printf frame_msg
                               (set_ifile (tl (ifile s))
                                  (set_buff (store_line (hd [] (ifile s)) (buff s)) s))).
Proof.
  intros (ts & rest & I & T & F).
  rewrite (loop_body_timestamp s ts rest I T), F, Bool.eqb_reflx, I. reflexivity.
Qed.

Lemma turn_sample_cut_short (s : state) :
  sample_cut_short s ->
  exists s', loop_body s = Return (-2) s' /\ console s' = console s ++ truncated_msg.
Proof.
  intros (ts & rest & I & T & F & Sh).
  pose proof (turn_cases s) as C. pose proof (loop_body_ends s) as E.
  destruct (loop_body s) as [s'|s'|code s'].
  - exfalso.
    destruct C as [(line & I' & T' & _)
                  |[(ts' & pos & I' & _ & _ & V & _)
                   |(ts' & pos & vel & I' & _)]];
      rewrite I in I'.
    + injection I' as <- _. congruence.
    + injection I' as _ ->. destruct Sh as [Sh|[Sh _]]; congruence.
    + injection I' as _ ->. destruct Sh as [Sh|[_ Sh]]; [discriminate|].
      cbn in Sh. lia.
  - destruct C as [C _]. congruence.
  - destruct C as (ts' & rest' & I' & _ & C).
    destruct C as [(_ & C & _)|(-> & _ & _)]; [contradiction|].
    destruct E as [[E _]|[_ E]]; [discriminate|].
    exists s'. auto.
Qed.

(** A loop that is left by [return] was at one of the two. *)
Lemma scan_aborted (k : nat) (s : state) (code : Z) (s' : state) :
  length (ifile s) <= k ->
  scan s = Aborted code s' ->
  exists t,
    reaches s t
    /\ ((code = (-1)%Z /\ frame_unresolved t)
        \/ (code = (-2)%Z /\ sample_cut_short t)).
Proof.
  revert s. induction k as [|k IH]; intros s L Sc;
    rewrite scan_step in Sc; pose proof (turn_cases s) as C;
    destruct (loop_body s) as [s1|s1|c1 s1] eqn:B; try discriminate.
  - apply loop_body_consumes in B. lia.
  - injection Sc as -> ->. exists s. split; [apply reaches_here|].
    destruct C as (ts & rest & I & T & [(-> & F & _)|(-> & F & C)]).
    + left. split; [reflexivity|]. exists ts, rest. auto.
    + right. split; [reflexivity|]. exists ts, rest.
      repeat split; try assumption.
      * intros E. rewrite E, Bool.eqb_reflx in F. discriminate.
      * destruct C as [[-> _]|(V & pos & -> & _)]; [left|right]; auto.
  - apply loop_body_consumes in B as B'.
    destruct (IH s1 ltac:(lia) Sc) as (t & R & D).
    exists t. split; [exact (reaches_next s s1 t B R)|exact D].
  - injection Sc as -> ->. exists s. split; [apply reaches_here|].
    destruct C as (ts & rest & I & T & [(-> & F & _)|(-> & F & C)]).
    + left. split; [reflexivity|]. exists ts, rest. auto.
    + right. split; [reflexivity|]. exists ts, rest.
      repeat split; try assumption.
      * intros E. rewrite E, Bool.eqb_reflx in F. discriminate.
      * destruct C as [[-> _]|(V & pos & -> & _)]; [left|right]; auto.
Qed.

Lemma arg_error_opens (w : world) (argv : list bytes) :
  arg_error w argv = false -> exists content, opens w argv content.
Proof.
  unfold arg_error, opens. cbv zeta. intros A.
  apply orb_false_iff in A. destruct A as [A A3].
  apply orb_false_iff in A. destruct A as [A1 A2].
  apply Nat.ltb_ge in A1.
  destruct (1 <? length argv) eqn:L1; [|apply Nat.ltb_ge in L1; lia].
  destruct (fopen_rb w (nth 1 argv [])) as [content|]; [|discriminate].
  exists content. repeat split; [lia|].
  intros L2. apply Nat.ltb_lt in L2. rewrite L2 in A3.
  apply negb_false_iff in A3. exact A3.
Qed.

(** C8, as the program has it.  Each kind of error ends the run with a
    message of its own and a negative code: an argument or open error
    with the usage text at the end of the messages, code -1 and nothing
    written; a line that passes the timestamp test while the frame is
    unresolved with the frame message and code -1; the end of the file
    inside a sample with the truncation message and code -2.  A run with
    both files open ends in no other way than with code 0 and no message
    or with one of the last two errors, and then the loop was at such a
    line.  The three messages differ from one another; the first two
    kinds share the code -1, only the code of a truncated input is
    distinct from the other two. *)
Theorem error_exits (w : world) (argv : list bytes) :
  let r := main w argv in
  (arg_error w argv = true ->
   exit_code r = (-1)%Z /\ ends_with usage_msg (messages r) /\ output r = [])
  /\ (forall content s,
        opens w argv content ->
        reaches (before_scan w (fgets_lines content) []) s ->
        (frame_unresolved s ->
         exit_code r = (-1)%Z /\ messages r = frame_msg)
        /\ (sample_cut_short s ->
            exit_code r = (-2)%Z /\ messages r = truncated_msg))
  /\ (arg_error w argv = false ->
      (exit_code r = 0%Z /\ messages r = [])
      \/ exists content s,
           opens w argv content
           /\ reaches (before_scan w (fgets_lines content) []) s
           /\ ((exit_code r = (-1)%Z /\ messages r = frame_msg
                /\ frame_unresolved s)
               \/ (exit_code r = (-2)%Z /\ messages r = truncated_msg
                   /\ sample_cut_short s)))
  /\ (~ ends_with usage_msg frame_msg /\ ~ ends_with usage_msg truncated_msg
      /\ ~ ends_with usage_msg [] /\ frame_msg <> truncated_msg
      /\ frame_msg <> [] /\ truncated_msg <> []).
Proof.
  cbv zeta. split; [|split; [|split]].
  - unfold main, arg_error. cbv zeta. intros ->.
    split; [reflexivity|]. split; [eexists; reflexivity|reflexivity].
  - intros content s O R.
    rewrite (main_opens w argv content O). unfold convert.
    rewrite (scan_reaches _ _ R), scan_step.
    pose proof (reaches_console _ _ R) as K.
    destruct (before_scan_facts w (fgets_lines content) [])
      as (_ & _ & _ & _ & K0 & _).
    rewrite K0 in K. split.
    + intros F. rewrite (turn_frame_unresolved s F). fields.
      rewrite K. auto.
    + intros F. destruct (turn_sample_cut_short s F) as (s' & -> & C).
      cbn [exit_code messages]. rewrite C, K. auto.
  - intros A. destruct (arg_error_opens w argv A) as [content O].
    rewrite (main_opens w argv content O). unfold convert.
    set (s0 := before_scan w (fgets_lines content) []).
    pose proof (scan_ends _ s0 (Nat.le_refl _)) as E.
    destruct (before_scan_facts w (fgets_lines content) [])
      as (_ & _ & _ & _ & K0 & _).
    fold s0 in K0. rewrite K0 in E.
    destruct (scan s0) as [s'|code s'] eqn:Sc.
    + left. cbn [exit_code messages].
      destruct (finish_header (fgets_lines content) s') as [-> _]. auto.
    + right. exists content.
      destruct (scan_aborted _ s0 code s' (Nat.le_refl _) Sc) as (t & R & D).
      exists t. split; [exact O|]. split; [exact R|].
      cbn [exit_code messages].
      destruct D as [[-> D]|[-> D]]; [left|right];
        (destruct E as [[E1 E2]|[E1 E2]]; [|]; try discriminate);
        rewrite E2; auto.
  - assert (L : forall m t, ends_with m t -> length m <= length t).
    { intros m t [pre ->]. rewrite length_app. lia. }
    repeat split; try discriminate;
      intros H; apply L in H; vm_compute in H; lia.
Qed.

End Errors.

(* ------------------------------------------------------------------ *)
(** ** Further runs on sample inputs *)

Module MoreRuns.
Import Examples.
#[local] Existing Instance Glibc.platform.

(** The state after [n] turns of the loop, as far as it goes on. *)
Fixpoint turns (n : nat) (s : state) : state :=
  match n with
  | 0 => s
  | S n => match loop_body (turns n s) with Next s' => s' | _ => turns n s end
  end.

(** Both frame markers before the data section. *)
Definition both_frames : bytes :=
  ln "Reference frame : ICRF" ++
  ln "Reference frame : Ecliptic of J2000" ++
  ln "$$SOE" ++ ts1 ++ xyz_labelled ++ ln "$$EOE".

(** Velocities announced, and the file ends after a position line. *)
Definition cut_after_position : bytes :=
  ln "Reference frame : ICRF" ++
  ln "   VX    VY    VZ" ++
  ln "$$SOE" ++ ts1 ++ xyz_labelled.

(** A timestamp line where the coordinate line should be. *)
Definition doubled : bytes :=
  ln "Reference frame : ICRF" ++ ln "$$SOE" ++ ts1 ++ ts2 ++ ln "$$EOE".

(** A line of 451 bytes before an ephemeris: three pieces for [fgets]. *)
Definition long_first_line : bytes :=
  repeat "x"%char 450 ++ [LF] ++ two_days.

(** A revision line with the identifier at offset 71, and a short one. *)
Definition revised_gaia : bytes :=
  " Revised: Jul 31, 2013" ++ repeat " "%char 49 ++ "-139479" ++ [LF].
Definition revised_short : bytes := ln " Revised: Apr 01, 2020   Probe".

(** A position line that ends after its first number. *)
Definition short_pos : bytes := ln "  1.5".

(** Timestamp lines with a blank before the Julian Date, one day apart. *)
Definition ts1_shifted : bytes :=
  ln " 2458765.50000000 = A.D. 2019-Oct-09 00:00:00.0000 TDB ".
Definition ts2_shifted : bytes :=
  ln " 2458766.50000000 = A.D. 2019-Oct-10 00:00:00.0000 TDB ".
Definition shifted_days : bytes :=
  ln "Reference frame : ICRF" ++ ln "$$SOE" ++
  ts1_shifted ++ xyz_labelled ++ ts2_shifted ++ xyz_labelled ++ ln "$$EOE".

(** A labelled position line with its ['X'] at offset 2, and an ephemeris
    with velocities in which the velocity line of the sample is empty. *)
Definition pos_x2 : bytes := "  X=" ++ skipn 4 xyz_labelled.
Definition empty_velocity : bytes :=
  ln "Reference frame : ICRF" ++ ln "   VX    VY    VZ" ++ ln "$$SOE" ++
  ts1 ++ pos_x2 ++ [LF] ++ ln "$$EOE".

Lemma reaches_turn (n : nat) (s : state) : reaches (turns n s) (turns (S n) s).
Proof.
  cbn [turns]. destruct (loop_body (turns n s)) as [s'| |] eqn:B;
    try apply reaches_here.
  eapply reaches_next; [exact B|apply reaches_here].
Qed.

Lemma reaches_turns (n : nat) (s : state) : reaches s (turns n s).
Proof.
  induction n as [|n IH]; [apply reaches_here|].
  exact (reaches_trans _ _ _ IH (reaches_turn n s)).
Qed.

Lemma opens_sample (content : bytes) : opens (world_of content) argv2 content.
Proof. repeat split. cbn. lia. Qed.

Lemma no_nul (l : bytes) : existsb (Ascii.eqb NUL) l = false -> ~ In NUL l.
Proof.
  intros E H.
  assert (T : existsb (Ascii.eqb NUL) l = true).
  { apply existsb_exists. exists NUL. split; [exact H|apply Ascii.eqb_refl]. }
  congruence.
Qed.

(** The identifier of Gaia resolves, and only it gives that name. *)
Lemma look_up_name_hit_witness :
  look_up_name (-139479) <> []
  /\ forall idx', look_up_name idx' = look_up_name (-139479) -> idx' = (-139479)%Z.
Proof.
  assert (H : look_up_name (-139479) <> []) by (vm_compute; discriminate).
  split; [exact H|].
  exact (proj1 (proj2 (proj2 (look_up_name_hit (-139479) H)))).
Defined.

(** After a sample of the ecliptic state in km and km/s the flags that
    were on are on. *)
Lemma flags_never_reset_witness :
  state_vectors (turns 1 ecliptic_km_state) = true
  /\ is_ecliptical (turns 1 ecliptic_km_state) = true
  /\ in_km_s (turns 1 ecliptic_km_state) = true.
Proof.
  destruct (@flags_never_reset Glibc.platform ecliptic_km_state
              (turns 1 ecliptic_km_state) (reaches_turns 1 ecliptic_km_state))
    as (V & _ & E & K).
  split; [apply V; reflexivity|].
  split; [apply E; reflexivity|apply K; reflexivity].
Defined.

(** The sample of that state is the fourth. *)
Lemma sample_keeps_settings_witness :
  n_written (turns 1 ecliptic_km_state) = 4%N.
Proof.
  refine (eq_trans
            (proj2 (proj2 (@sample_keeps_settings Glibc.platform ecliptic_km_state
                             (turns 1 ecliptic_km_state) ts1 [xyz_km; v_labelled]
                             _ _ _))) _).
  - reflexivity.
  - vm_compute. reflexivity.
  - vm_compute. reflexivity.
  - vm_compute. reflexivity.
Defined.

(** Both frame lines, then a sample: the run stops at the sample. *)
Lemma contradicting_frames_abort_witness :
  main (world_of both_frames) argv2
  = {| exit_code := -1; messages := frame_msg;
       output := "      0.00000   0.0000000000    0 0,1,1" |}.
Proof.
  set (s0 := before_scan (world_of both_frames) (fgets_lines both_frames) []).
  rewrite (@contradicting_frames_abort Glibc.platform (world_of both_frames) argv2
             both_frames (turns 2 s0) (turns 3 s0) ts1 [xyz_labelled; ln "$$EOE"]).
  - vm_compute. reflexivity.
  - apply opens_sample.
  - apply reaches_turns.
  - vm_compute. reflexivity.
  - vm_compute. reflexivity.
  - apply reaches_turn.
  - vm_compute. reflexivity.
  - vm_compute. reflexivity.
Defined.

(** A frame line sets the same flags after an empty buffer and after a
    coordinate line. *)
Lemma header_line_read_alone_witness :
  flags_of (detect (set_buff (store_line (ln "Reference frame : ICRF")
                                (repeat NUL 200)) ecliptic_km_state))
  = flags_of (detect (set_buff (store_line (ln "Reference frame : ICRF")
                                  (store_line xyz_labelled (repeat NUL 200)))
                        ecliptic_km_state)).
Proof.
  refine (proj1 (@header_line_read_alone Glibc.platform ecliptic_km_state
                   (ln "Reference frame : ICRF") (repeat NUL 200)
                   (store_line xyz_labelled (repeat NUL 200)) _)).
  left. vm_compute. reflexivity.
Defined.

(** A short revision line after the revision line of Gaia: the name is
    that of Gaia. *)
Lemma short_revised_line_reads_old_bytes_witness :
  object_name (detect (set_buff (store_line revised_short
                                   (store_line revised_gaia (repeat NUL 200)))
                         ecliptic_km_state))
  = "Gaia = 2013-074A = NORAD 39479".
Proof.
  rewrite (@short_revised_line_reads_old_bytes Glibc.platform ecliptic_km_state
             revised_short (store_line revised_gaia (repeat NUL 200))).
  - vm_compute. reflexivity.
  - vm_compute. reflexivity.
  - vm_compute. lia.
  - vm_compute. reflexivity.
  - vm_compute. reflexivity.
  - vm_compute. reflexivity.
  - vm_compute. reflexivity.
Defined.

(** The file ends after the position line of a sample with velocities:
    the position stays in the output, without a line end. *)
Lemma truncated_input_aborts_witness :
  main (world_of cut_after_position) argv2
  = {| exit_code := -2; messages := truncated_msg;
       output := "      0.00000   0.0000000000    0 0,1,1" ++ [LF]
                 ++ "2458765.50000    1.0000000000    2.0000000000    3.0000000000" |}.
Proof.
  set (s0 := before_scan (world_of cut_after_position)
               (fgets_lines cut_after_position) []).
  rewrite (@truncated_input_aborts Glibc.platform (world_of cut_after_position) argv2
             cut_after_position (turns 3 s0) ts1 [xyz_labelled]).
  - vm_compute. reflexivity.
  - apply opens_sample.
  - apply reaches_turns.
  - vm_compute. reflexivity.
  - vm_compute. reflexivity.
  - vm_compute. discriminate.
  - right. split; vm_compute; reflexivity.
Defined.

(** The ephemeris of two days is well formed and its run succeeds or
    stops at the frame check. *)
Lemma well_formed_not_truncated_witness :
  (exit_code (main (world_of two_days) argv2) = 0%Z
   /\ messages (main (world_of two_days) argv2) = [])
  \/ (exit_code (main (world_of two_days) argv2) = (-1)%Z
      /\ messages (main (world_of two_days) argv2) = frame_msg).
Proof.
  apply (@well_formed_not_truncated Glibc.platform (world_of two_days) argv2 two_days).
  - apply opens_sample.
  - vm_compute. reflexivity.
Defined.

(** The truncated run starts with the provisional header. *)
Lemma failed_run_keeps_provisional_header_witness :
  exists body,
    output (main (world_of cut_after_position) argv2)
    = header_fmt 0 0 0 ++ header_suffix ++ body.
Proof.
  apply (@failed_run_keeps_provisional_header Glibc.platform
           (world_of cut_after_position) argv2 cut_after_position).
  - apply opens_sample.
  - vm_compute. discriminate.
Defined.

(** The layout of the output for the ephemeris of two days. *)
Lemma successful_run_layout_witness :
  exists jd step n body,
    let h := header_fmt jd step n in
    output (main (world_of two_days) argv2)
    = h ++ skipn (length h)
             (header_fmt 0 0 0 ++ header_suffix ++ body ++ trailer
              ++ preamble (fgets_lines two_days)).
Proof.
  apply (@successful_run_layout Glibc.platform (world_of two_days) argv2 two_days).
  - apply opens_sample.
  - vm_compute. reflexivity.
Defined.



(** After the three pieces of the long line the buffer has 200 bytes. *)
Lemma buffer_keeps_size_witness :
  length (buff (turns 3 (before_scan (world_of long_first_line)
                           (fgets_lines long_first_line) []))) = 200.
Proof.
  refine (proj1 (@buffer_keeps_size Glibc.platform (world_of long_first_line)
                   long_first_line [] _ _ (reaches_turns 3 _))).
  reflexivity.
Defined.

(** After the first sample timestamp line, the short position line
    gives the year and the seconds of the timestamp as y and z. *)
Lemma short_position_line_reads_timestamp_witness :
  raw_coords (store_line short_pos (store_line ts1 (repeat NUL 200)))
  = (1.5, 2019, 0)%float.
Proof.
  refine (eq_trans
            (@short_position_line_reads_timestamp Glibc.platform ts1 short_pos
               (repeat NUL 200) _ _ _ _) _).
  - vm_compute. lia.
  - vm_compute. lia.
  - vm_compute. lia.
  - vm_compute. reflexivity.
  - vm_compute. reflexivity.
Defined.

Lemma five_conditions_ts1 : five_conditions (c_str ts1).
Proof. apply is_timestamp_line_conditions. vm_compute. reflexivity. Qed.

(** In the ephemeris of two days the fourth line the loop reads is the
    first timestamp line: the turn runs the block of a sample on it. *)
Lemma timestamp_line_iff_witness :
  let s := turns 3 (before_scan (world_of two_days) (fgets_lines two_days) []) in
  ifile s = ts1 :: tl (ifile s)
  /\ loop_body s = sample_turn s ts1 (tl (ifile s)).
Proof.
  cbv zeta.
  set (s := turns 3 (before_scan (world_of two_days) (fgets_lines two_days) [])).
  assert (I : ifile s = ts1 :: tl (ifile s)) by (vm_compute; reflexivity).
  split; [exact I|].
  apply (proj1 (proj1 (@timestamp_line_iff Glibc.platform s ts1 (tl (ifile s)) I))).
  exact five_conditions_ts1.
Defined.

(** C2 as stated fails: the second timestamp line of this input meets the
    five conditions, but it comes right after the first, and the loop
    takes it as the coordinate line of that sample.  The loop condition
    never reads it; one sample is counted, and its coordinates are the
    numbers found in the second timestamp line. *)
Lemma qualifying_line_read_as_coordinates :
  let lines := fgets_lines doubled in
  let r := main (world_of doubled) argv2 in
  In ts2 lines
  /\ five_conditions (c_str ts2)
  /\ heads (length lines) (before_scan (world_of doubled) lines [])
     = [ln "Reference frame : ICRF"; ln "$$SOE"; ts1; ln "$$EOE"]
  /\ ~ In ts2 (heads (length lines) (before_scan (world_of doubled) lines []))
  /\ exit_code r = 0%Z
  /\ output r
     = "2458765.50000   0.0000000000    1 0,1,1" ++ [LF]
       ++ "2458765.50000458766.5000000000 2019.0000000000    0.0000000000" ++ [LF]
       ++ [LF; LF]
       ++ "Created from Horizons data by 'jpl2mpc', ver Oct 29 2026" ++ [LF]
       ++ "Reference frame : ICRF" ++ [LF].
Proof.
  cbv zeta.
  assert (H : heads (length (fgets_lines doubled))
                (before_scan (world_of doubled) (fgets_lines doubled) [])
              = [ln "Reference frame : ICRF"; ln "$$SOE"; ts1; ln "$$EOE"])
    by (vm_compute; reflexivity).
  split; [vm_compute; tauto|].
  split; [apply is_timestamp_line_conditions; vm_compute; reflexivity|].
  split; [exact H|].
  split; [|split; vm_compute; reflexivity].
  rewrite H. intros [E|[E|[E|[E|[]]]]]; vm_compute in E; discriminate.
Qed.

(** The counter is a 32-bit [unsigned]: with 2^32 - 1 samples written
    it comes back to 0 and then to 1, and the sample read then sets the
    step size once more. *)
Lemma step_size_after_wrap :
  let s := set_ifile [ts1; xyz_labelled; ts1; xyz_labelled; ts1000; xyz_labelled]
             (set_is_ecliptical false
                (set_state_vectors false
                   (set_is_equatorial true
                      (set_step_size 1
                         (set_n_written 4294967295 ecliptic_km_state))))) in
  step_size s = 1%float
  /\ n_written (turns 1 s) = 0%N
  /\ step_size (turns 2 s) = 1%float
  /\ step_size (turns 3 s) = 1000%float.
Proof. cbv zeta. repeat split; vm_compute; reflexivity. Qed.

(** Two samples one day apart: step size 1, count 2. *)
Lemma step_size_from_first_two_witness :
  exists rest,
    output (main (world_of two_days) argv2)
    = "2458765.50000   1.0000000000    2" ++ rest.
Proof.
  destruct (@step_size_from_first_two Glibc.platform (world_of two_days) argv2 two_days)
    as [[rest E] _].
  - apply opens_sample.
  - vm_compute. reflexivity.
  - vm_compute. reflexivity.
  - exists rest. rewrite E. f_equal.
Defined.

(** C3 as stated fails: these two timestamp lines pass the timestamp test
    and their Julian Dates, as the test reads them, are 2458765.5 and
    2458766.5, one day apart; but a blank comes before each number, the
    text at offset 7 is 5.50000000 and 6.50000000, and the step size in
    the header is 2, not 1. *)
Lemma leading_blank_step :
  let r := main (world_of shifted_days) argv2 in
  (is_timestamp_line ts1_shifted = true /\ is_timestamp_line ts2_shifted = true)
  /\ samples false (fgets_lines shifted_days) = [ts1_shifted; ts2_shifted]
  /\ (atof (c_str ts1_shifted) = 2458765.5%float
      /\ atof (c_str ts2_shifted) = 2458766.5%float
      /\ (2458766.5 - 2458765.5 = 1)%float)
  /\ (atof (str_at ts1_shifted 7) = 5.5%float
      /\ atof (str_at ts2_shifted 7) = 6.5%float)
  /\ exit_code r = 0%Z
  /\ firstn 33 (output r) = "2458765.50000   2.0000000000    2"
  /\ header_fmt 2458765.5 (2458766.5 - 2458765.5) 2
     = "2458765.50000   1.0000000000    2"
  /\ ~ exists rest,
         output r = header_fmt 2458765.5 (2458766.5 - 2458765.5) 2 ++ rest.
Proof.
  cbv zeta.
  repeat match goal with |- _ /\ _ => split end;
    try (vm_compute; reflexivity).
  intros [rest E].
  apply (f_equal (firstn 33)) in E.
  rewrite firstn_app in E. vm_compute in E. discriminate.
Qed.

(** The labelled and the plain sample line give the same coordinates
    after rotation, whatever was in the buffer before each. *)
Lemma coordinate_layout_witness :
  get_coords_from_buff (store_line xyz_labelled (store_line ts1 (repeat NUL 200))) true
  = get_coords_from_buff (store_line xyz_plain (repeat NUL 200)) true.
Proof.
  apply (proj2 (proj2 (proj2 (proj2
           (@coordinate_layout Glibc.platform [] [] xyz_labelled xyz_plain
              (store_line ts1 (repeat NUL 200)) (repeat NUL 200) true))))).
  - vm_compute. reflexivity.
  - vm_compute. reflexivity.
  - vm_compute. lia.
  - vm_compute. lia.
  - vm_compute. reflexivity.
Defined.

(** C6 as stated fails for a line of one byte.  The empty line has no
    character at offset 1 or 2, yet after a position line with its ['X']
    at offset 2 it is parsed with the labelled layout, and gives the
    numbers of that line; after an unlabelled position line it is parsed
    with the unlabelled layout: its layout depends on the line before it.
    In a run, the empty velocity line of the sample gives the position
    once more as the velocity. *)
Lemma bare_line_layout_from_earlier_line :
  let g := repeat NUL 200 in
  let r := main (world_of empty_velocity) argv2 in
  (nth_error [LF] 1 = None /\ nth_error [LF] 2 = None)
  /\ labelled (store_line [LF] (store_line pos_x2 g)) = true
  /\ labelled (store_line [LF] (store_line xyz_plain g)) = false
  /\ get_coords_from_buff (store_line [LF] (store_line pos_x2 g)) false
     = (1, 2, 3)%float
  /\ parse_at (store_line [LF] (store_line pos_x2 g)) 1 24 47 = (0, 0, 0)%float
  /\ get_coords_from_buff (store_line [LF] (store_line xyz_plain g)) false
     = (0, 2, 3)%float
  /\ fgets_lines empty_velocity
     = [ln "Reference frame : ICRF"; ln "   VX    VY    VZ"; ln "$$SOE";
        ts1; pos_x2; [LF]; ln "$$EOE"]
  /\ exit_code r = 0%Z
  /\ output r
     = "2458765.50000   0.0000000000    1 0,1,1" ++ [LF]
       ++ "2458765.50000    1.0000000000    2.0000000000    3.0000000000"
       ++ "   1.000000000000  2.000000000000  3.000000000000" ++ [LF]
       ++ [LF; LF]
       ++ "Created from Horizons data by 'jpl2mpc', ver Oct 29 2026" ++ [LF]
       ++ "Reference frame : ICRF" ++ [LF]
       ++ "   VX    VY    VZ" ++ [LF].
Proof.
  cbv zeta.
  repeat match goal with |- _ /\ _ => split end; vm_compute; reflexivity.
Qed.

(** A timestamp line at the end of the file: code -2 and the truncation
    message. *)
Lemma error_exits_witness :
  exit_code (main (world_of cut_short) argv2) = (-2)%Z
  /\ messages (main (world_of cut_short) argv2) = truncated_msg.
Proof.
  apply (proj2 (proj1 (proj2 (@error_exits Glibc.platform (world_of cut_short) argv2))
                  cut_short
                  (turns 2 (before_scan (world_of cut_short) (fgets_lines cut_short) []))
                  (opens_sample cut_short) (reaches_turns 2 _))).
  exists ts1, []. split; [vm_compute; reflexivity|].
  split; [vm_compute; reflexivity|].
  split; [vm_compute; discriminate|left; reflexivity].
Defined.

(** The ephemeris of two days: three lines come before the data section
    and are copied. *)
Lemma preamble_copied_verbatim_witness :
  exists before after,
    fgets_lines two_days = before ++ after
    /\ Forall (fun l => memcmp_eq l "$$SOE" 5 = false) before
    /\ match after with
       | [] => True
       | l :: _ => memcmp_eq l "$$SOE" 5 = true
       end
    /\ data (ofile (copy_preamble (fgets_lines two_days) ecliptic_km_state))
       = [] ++ concat before
    /\ two_days = concat before ++ concat after.
Proof.
  apply (preamble_copied_verbatim two_days ecliptic_km_state).
  - apply no_nul. vm_compute. reflexivity.
  - reflexivity.
Defined.

End MoreRuns.
